(** * Type checking and conversion of easyconfig parameter values

    A shallow embedding of [easybuild/framework/easyconfig/types.py]
    (Python 2) and the properties of its matcher ([is_value_of_type]),
    converter ([convert_value_type]), domain coercions
    ([to_name_version_dict], [to_dependency], [to_dependencies]) and
    parameter checker ([check_type_of_param_value]). *)

From Stdlib Require Import List String Ascii ZArith QArith Bool Lia.
From Stdlib Require Import Permutation Sorted OrdersEx RelationClasses.
Import ListNotations.

Local Close Scope Q_scope.
Local Open Scope string_scope.
Local Open Scope list_scope.

(** ** Python values *)

(** The classes the module mentions.  [basestring] is the abstract parent
    of [str]. *)
Inductive pyclass : Type :=
| basestring | dict | float | int | list_ | str | tuple.

(** The values that reach the module: deserialised scalars, sequences and
    mappings, and the type objects type specifications are built from.  A
    [VDict] lists its items in the dict's iteration order; keys are strings
    and are expected to be distinct (see [dict_wf]).  Floats are taken as
    the rationals they denote; booleans, unicode strings and long integers
    are left out. *)
#[warnings="-register-all"]
Inductive value : Type :=
| VNone
| VInt (z : Z)
| VFloat (q : Q)
| VStr (s : string)
| VList (l : list value)
| VTuple (l : list value)
| VDict (d : list (string * value))
| VClass (c : pyclass).

Definition pydict : Type := list (string * value).

(** Exceptions.  The [EasyBuildError]s are told apart by the [raise]
    statement they come from. *)
Inductive exn : Type :=
| TypeError
| KeyError
| IndexError
| AttributeError
| ValueError
| RuntimeError                     (* maximum recursion depth exceeded *)
| UnknownParentType                (* "Don't know how to check value with parent type" *)
| UnknownRequirement (er_key : string) (* "Unknown type requirement specified" *)
| UnknownType                      (* "Don't know how to check whether specified value is of type" *)
| ConversionFailed (err : exn)     (* "Converting type of ... using ... failed" *)
| ConversionUnexpected             (* "Converting value ... didn't work as expected" *)
| NoConversionFunction             (* "No conversion function available (yet)" *)
| NameVersionListLength            (* "Can not convert list ... Expected 2 elements" *)
| NameVersionKeys                  (* "Incorrect set of keys in provided dictionary" *)
| NameVersionUnsupported           (* "Conversion of ... to name and version dict is not supported" *)
| DependencyUnexpectedPair         (* "Found unexpected (key, value) pair" *)
| DependencyNoNameVersion          (* "Can not parse dependency without name and version" *)
| DependencyUnsupported.           (* "Can not convert ... to dependency dict" *)

(** [is_EasyBuildError e]: [e] was raised as an [EasyBuildError]. *)
Definition is_EasyBuildError (e : exn) : bool :=
  match e with
  | TypeError | KeyError | IndexError | AttributeError | ValueError
  | RuntimeError => false
  | _ => true
  end.

(** ** Results: a value or a raised exception *)

Inductive result (A : Type) : Type :=
| Ok (a : A)
| Raise (e : exn).
Arguments Ok {A} a.
Arguments Raise {A} e.

Definition bind {A B : Type} (m : result A) (f : A -> result B) : result B :=
  match m with
  | Ok a => f a
  | Raise e => Raise e
  end.

Notation "x <- m ;; k" := (bind m (fun x => k))
  (at level 61, m at next level, right associativity).

(** A list comprehension [[f x for x in l]]: every element is evaluated, in
    order; the first exception ends it. *)
Fixpoint comprehension {A B : Type} (f : A -> result B) (l : list A)
  : result (list B) :=
  match l with
  | [] => Ok []
  | x :: r => y <- f x ;; ys <- comprehension f r ;; Ok (y :: ys)
  end.

(** [all([...])] over an evaluated list. *)
Definition all (l : list bool) : bool := forallb (fun b => b) l.

(** [any(f x for x in l)] over a generator: stops at the first true
    element, so later elements are not evaluated. *)
Fixpoint any {A : Type} (f : A -> result bool) (l : list A) : result bool :=
  match l with
  | [] => Ok false
  | x :: r => b <- f x ;; if b then Ok true else any f r
  end.

(** ** Equality of values ([==]) *)

Definition pyclass_eqb (a b : pyclass) : bool :=
  match a, b with
  | basestring, basestring | dict, dict | float, float | int, int
  | list_, list_ | str, str | tuple, tuple => true
  | _, _ => false
  end.

Fixpoint dict_find (k : string) (d : pydict) : option value :=
  match d with
  | [] => None
  | (k', v) :: r => if String.eqb k k' then Some v else dict_find k r
  end.

(** Sequences compare element by element, a list never equals a tuple, and
    dicts compare by content, whatever their order. *)
Fixpoint value_eqb (a b : value) {struct a} : bool :=
  let fix seq_eqb (l1 l2 : list value) {struct l1} : bool :=
    match l1, l2 with
    | [], [] => true
    | x :: r1, y :: r2 => value_eqb x y && seq_eqb r1 r2
    | _, _ => false
    end in
  let fix items_in (d1 : pydict) (d2 : pydict) {struct d1} : bool :=
    match d1 with
    | [] => true
    | (k, v) :: r =>
        match dict_find k d2 with
        | Some v' => value_eqb v v' && items_in r d2
        | None => false
        end
    end in
  match a, b with
  | VNone, VNone => true
  | VInt x, VInt y => Z.eqb x y
  | VInt x, VFloat y => Qeq_bool (inject_Z x) y
  | VFloat x, VInt y => Qeq_bool x (inject_Z y)
  | VFloat x, VFloat y => Qeq_bool x y
  | VStr x, VStr y => String.eqb x y
  | VList x, VList y => seq_eqb x y
  | VTuple x, VTuple y => seq_eqb x y
  | VDict x, VDict y => Nat.eqb (List.length x) (List.length y) && items_in x y
  | VClass x, VClass y => pyclass_eqb x y
  | _, _ => false
  end.

(** [x in l] for a list or tuple [l]. *)
Definition contains (x : value) (l : list value) : bool :=
  existsb (value_eqb x) l.

(** ** isinstance *)

Definition isinstance_class (v : value) (c : pyclass) : bool :=
  match v, c with
  | VInt _, int => true
  | VFloat _, float => true
  | VStr _, str => true
  | VStr _, basestring => true
  | VList _, list_ => true
  | VTuple _, tuple => true
  | VDict _, dict => true
  | _, _ => false
  end.

(** [isinstance(v, t)]: [t] is a class or a tuple of classes and of such
    tuples; the members are tried in order and the first match answers, so a
    member that is no class raises only when it is reached. *)
Fixpoint isinstance (v : value) (t : value) {struct t} : result bool :=
  let fix first_match (ts : list value) {struct ts} : result bool :=
    match ts with
    | [] => Ok false
    | t' :: r => b <- isinstance v t' ;; if b then Ok true else first_match r
    end in
  match t with
  | VClass c => Ok (isinstance_class v c)
  | VTuple ts => first_match ts
  | _ => Raise TypeError
  end.

(** ** Strings *)

(** [str] values are byte strings and compare byte by byte. *)
Definition str_leb (a b : string) : bool :=
  match String_as_OT.compare a b with
  | Gt => false
  | _ => true
  end.

(** [s.split(sep)] for a one-character separator: never empty. *)
Fixpoint split (sep : ascii) (s : string) : list string :=
  match s with
  | EmptyString => [EmptyString]
  | String c r =>
      if Ascii.eqb c sep then EmptyString :: split sep r
      else match split sep r with
           | h :: t => String c h :: t
           | [] => [String c EmptyString]
           end
  end.

(** The characters [strip()] removes: space, tab, newline, carriage return,
    vertical tab and form feed. *)
Definition is_space (c : ascii) : bool :=
  let n := nat_of_ascii c in
  Nat.eqb n 32 || (Nat.leb 9 n && Nat.leb n 13).

Fixpoint lstrip (s : string) : string :=
  match s with
  | EmptyString => EmptyString
  | String c r => if is_space c then lstrip r else s
  end.

Fixpoint rstrip (s : string) : string :=
  match s with
  | EmptyString => EmptyString
  | String c r =>
      match rstrip r with
      | EmptyString => if is_space c then EmptyString else String c EmptyString
      | r' => String c r'
      end
  end.

Definition strip (s : string) : string := rstrip (lstrip s).

(** [v.strip()]: only strings have the method. *)
Definition strip_method (v : value) : result value :=
  match v with
  | VStr s => Ok (VStr (strip s))
  | _ => Raise AttributeError
  end.

Fixpoint is_substring (p s : string) : bool :=
  String.prefix p s ||
  match s with
  | EmptyString => false
  | String _ r => is_substring p r
  end.

Fixpoint chars (s : string) : list value :=
  match s with
  | EmptyString => []
  | String c r => VStr (String c EmptyString) :: chars r
  end.

(** ** Sorting *)

(** [sorted] on items whose order is decided by a string key: a stable
    insertion sort.  The items of a dict have distinct keys, so sorting
    [(key, val)] pairs never compares two values. *)
Section Sorted.
Context {A : Type} (key : A -> string).

Fixpoint insert_sorted (x : A) (l : list A) : list A :=
  match l with
  | [] => [x]
  | y :: r => if str_leb (key x) (key y) then x :: l
              else y :: insert_sorted x r
  end.

Definition sorted (l : list A) : list A := fold_right insert_sorted [] l.

(** The order of two items by their keys. *)
Definition key_le (x y : A) : Prop := str_leb (key x) (key y) = true.
End Sorted.

(** ** Dicts and sequences *)

Definition keys (d : pydict) : list string := map fst d.
Definition values (d : pydict) : list value := map snd d.

(** [d[k] = v]: an existing key keeps its place and a new one is put
    last.  The interpreter orders a dict by the hashes of its keys; where a
    new key lands is a choice of this model, and the properties below are
    stated through lookups wherever the order is not fixed by the source. *)
Fixpoint dict_set (k : string) (v : value) (d : pydict) : pydict :=
  match d with
  | [] => [(k, v)]
  | (k', v') :: r =>
      if String.eqb k k' then (k, v) :: r else (k', v') :: dict_set k v r
  end.

Definition dict_has (k : string) (d : pydict) : bool :=
  match dict_find k d with
  | Some _ => true
  | None => false
  end.

(** [d[k]]. *)
Definition dict_get (k : string) (d : pydict) : result value :=
  match dict_find k d with
  | Some v => Ok v
  | None => Raise KeyError
  end.

(** A dict is well formed when its keys are distinct. *)
Definition dict_wf (d : pydict) : Prop := NoDup (keys d).

(** [for x in v]. *)
Definition iter (v : value) : result (list value) :=
  match v with
  | VList l | VTuple l => Ok l
  | VDict d => Ok (map VStr (keys d))
  | VStr s => Ok (chars s)
  | _ => Raise TypeError
  end.

(** [v[i]] for a constant index [i]. *)
Definition getitem (v : value) (i : nat) : result value :=
  match v with
  | VList l | VTuple l =>
      match nth_error l i with
      | Some x => Ok x
      | None => Raise IndexError
      end
  | VStr s =>
      match nth_error (chars s) i with
      | Some x => Ok x
      | None => Raise IndexError
      end
  | VDict _ => Raise KeyError
  | _ => Raise TypeError
  end.

(** [len(v)]. *)
Definition len (v : value) : result nat :=
  match v with
  | VList l | VTuple l => Ok (List.length l)
  | VDict d => Ok (List.length d)
  | VStr s => Ok (String.length s)
  | _ => Raise TypeError
  end.

(** [dict(v)] for a dict or a sequence of two-element entries.  Keys other
    than strings are outside this model of dicts and are refused. *)
Definition dict_entry (e : value) : result (string * value) :=
  kv <- iter e ;;
  match kv with
  | [VStr k; v] => Ok (k, v)
  | [_; _] => Raise TypeError
  | _ => Raise ValueError
  end.

Definition dict_of (v : value) : result pydict :=
  match v with
  | VDict d => Ok d
  | _ =>
      es <- iter v ;;
      kvs <- comprehension dict_entry es ;;
      Ok (fold_left (fun d kv => dict_set (fst kv) (snd kv) d) kvs [])
  end.

(** [k in a + b]: [+] joins two tuples, two lists or two strings; what it
    gives for numbers is no container, and everything else it refuses. *)
Definition in_sum (k a b : value) : result bool :=
  match a, b with
  | VTuple x, VTuple y | VList x, VList y => Ok (contains k (x ++ y))
  | VStr x, VStr y =>
      match k with
      | VStr p => Ok (is_substring p (x ++ y))
      | _ => Raise TypeError
      end
  | _, _ => Raise TypeError
  end.

(** ** The hashable encoder *)

(** [dict2tuple]: the items sorted by key, each list value turned into a
    tuple. *)
Definition dict2tuple (dict_value : value) : result value :=
  match dict_value with
  | VDict d =>
      Ok (VTuple
            (map (fun kv : string * value =>
                    let (key, val) := kv in
                    let val := match val with
                               | VList l => VTuple l      (* tuple(val) *)
                               | _ => val
                               end in
                    VTuple [VStr key; val])
                 (sorted fst d)))
  | _ => Raise AttributeError
  end.

(** ** The matcher *)

(** [val.keys()] and [val.values()]. *)
Definition keys_method (val : value) : result (list value) :=
  match val with
  | VDict d => Ok (map VStr (keys d))
  | _ => Raise AttributeError
  end.

Definition values_method (val : value) : result (list value) :=
  match val with
  | VDict d => Ok (values d)
  | _ => Raise AttributeError
  end.

Section Matcher.
(** The two module-level lists the matcher consults. *)
Variables easy_types checkable_types : list value.

Section Checkers.
(** The recursive call of the matcher and the requirements of the type
    being checked. *)
Variable is_value_of_type : value -> value -> result bool.
Variable extra_reqs : pydict.

(** [any(is_value_of_type(el, t) for t in extra_reqs[name])]. *)
Definition any_type (name : string) (el : value) : result bool :=
  req <- dict_get name extra_reqs ;;
  ts <- iter req ;;
  any (fun t => is_value_of_type el t) ts.

Definition check_key_types (val : value) : result bool :=
  ks <- keys_method val ;;
  bs <- comprehension (any_type "key_types") ks ;;
  Ok (all bs).

Definition check_opt_keys (val : value) : result bool :=
  ks <- keys_method val ;;
  bs <- comprehension
          (fun k => required <- dict_get "required_keys" extra_reqs ;;
                    opt <- dict_get "opt_keys" extra_reqs ;;
                    in_sum k required opt) ks ;;
  Ok (all bs).

Definition check_required_keys (val : value) : result bool :=
  req <- dict_get "required_keys" extra_reqs ;;
  ks <- iter req ;;
  bs <- comprehension
          (fun k => val_keys <- keys_method val ;; Ok (contains k val_keys))
          ks ;;
  Ok (all bs).

Definition check_value_types_dict (val : value) : result bool :=
  vs <- values_method val ;;
  bs <- comprehension (any_type "value_types") vs ;;
  Ok (all bs).

Definition check_value_types_list (val : value) : result bool :=
  els <- iter val ;;
  bs <- comprehension (any_type "value_types") els ;;
  Ok (all bs).

(** [extra_req_checkers] for [parent_type == dict]. *)
Definition dict_checkers (er_key : string)
  : option (value -> result bool) :=
  if String.eqb er_key "key_types" then Some check_key_types
  else if String.eqb er_key "opt_keys" then Some check_opt_keys
  else if String.eqb er_key "required_keys" then Some check_required_keys
  else if String.eqb er_key "value_types" then Some check_value_types_dict
  else None.

(** [extra_req_checkers] for [parent_type == list]. *)
Definition list_checkers (er_key : string)
  : option (value -> result bool) :=
  if String.eqb er_key "value_types" then Some check_value_types_list
  else None.

(** The choice of [extra_req_checkers] by [parent_type]. *)
Definition checkers_for (parent_type : value)
  : result (string -> option (value -> result bool)) :=
  if value_eqb parent_type (VClass dict) then Ok dict_checkers
  else if value_eqb parent_type (VClass list_) then Ok list_checkers
  else Raise UnknownParentType.

(** The loop [for er_key in extra_reqs], with [type_ok] carried along;
    every requirement is checked, an unknown one raises. *)
Fixpoint check_requirements
    (extra_req_checkers : string -> option (value -> result bool))
    (val : value) (er_keys : list string) (type_ok : bool)
  : result bool :=
  match er_keys with
  | [] => Ok type_ok
  | er_key :: rest =>
      match extra_req_checkers er_key with
      | Some checker =>
          check_ok <- checker val ;;
          check_requirements extra_req_checkers val rest
                             (type_ok && check_ok)
      | None => Raise (UnknownRequirement er_key)
      end
  end.
End Checkers.

(** [is_value_of_type(value, expected_type)].  [depth] bounds the nesting
    of recursive calls, as the interpreter's recursion limit does. *)
Fixpoint is_value_of_type (depth : nat) (val expected_type : value)
  : result bool :=
  match depth with
  | O => Raise RuntimeError
  | S depth' =>
      if contains expected_type easy_types then
        isinstance val expected_type
      else if contains expected_type checkable_types then
        parent_type <- getitem expected_type 0 ;;
        reqs <- getitem expected_type 1 ;;
        extra_reqs <- dict_of reqs ;;
        type_ok <- isinstance val parent_type ;;
        if type_ok then
          extra_req_checkers <-
            checkers_for (is_value_of_type depth') extra_reqs parent_type ;;
          check_requirements extra_req_checkers val (keys extra_reqs)
                             type_ok
        else Ok false
      else Raise UnknownType
  end.
End Matcher.

(** ** The module's constants *)

(** The value of an expression known not to raise. *)
Definition the (r : result value) : value :=
  match r with
  | Ok v => v
  | Raise _ => VNone
  end.

Definition NAME_VERSION_DICT : value :=
  VTuple [VClass dict;
          the (dict2tuple (VDict [
            ("required_keys", VList [VStr "name"; VStr "version"]);
            ("opt_keys", VList []);
            ("value_types", VList [VClass str])]))].

Definition DEPENDENCY_DICT : value :=
  VTuple [VClass dict;
          the (dict2tuple (VDict [
            ("opt_keys", VTuple [VStr "versionsuffix"; VStr "toolchain"]);
            ("required_keys", VTuple [VStr "name"; VStr "version"])]))].

Definition DEPENDENCIES : value :=
  VTuple [VClass list_;
          VTuple [VTuple [VStr "value_types"; VTuple [DEPENDENCY_DICT]]]].

Definition CHECKABLE_TYPES : list value :=
  [NAME_VERSION_DICT; DEPENDENCIES; DEPENDENCY_DICT].

Definition EASY_TYPES : list value :=
  [VClass basestring; VClass dict; VClass int; VClass list_; VClass str;
   VClass tuple].

(** [TYPES]: the expected type of the parameters that have one. *)
Definition TYPES : list (string * value) :=
  [("dependencies", DEPENDENCIES);
   ("name", VClass basestring);
   ("toolchain", NAME_VERSION_DICT);
   ("version", VClass basestring)].

(** ** Domain coercions *)

Definition str_list_eqb (a b : list string) : bool :=
  if list_eq_dec string_dec a b then true else false.

(** [to_name_version_dict(spec)]. *)
Definition to_name_version_dict (spec : value) : result value :=
  let spec :=
    match spec with
    | VStr s => VList (map VStr (split "," s))     (* spec.split(',') *)
    | _ => spec
    end in
  match spec with
  | VList l =>
      if Nat.eqb (List.length l) 2 then
        s0 <- getitem spec 0 ;;
        name <- strip_method s0 ;;
        s1 <- getitem spec 1 ;;
        version <- strip_method s1 ;;
        Ok (VDict [("name", name); ("version", version)])
      else Raise NameVersionListLength
  | VDict d =>
      if str_list_eqb (sorted (fun k => k) (keys d)) ["name"; "version"]
      then Ok spec
      else Raise NameVersionKeys
  | _ => Raise NameVersionUnsupported
  end.

(** One turn of the loop [for key, value in dep.items()] of
    [to_dependency], on the state [(depspec, found_name_version)]. *)
Definition to_dependency_step (st : pydict * bool) (item : string * value)
  : result (pydict * bool) :=
  let '(depspec, found_name_version) := st in
  let '(key, val) := item in
  depspec <-
    (if existsb (String.eqb key) ["name"; "version"; "versionsuffix"] then
       Ok (dict_set key val depspec)
     else if String.eqb key "toolchain" then
       tc <- to_name_version_dict val ;;
       Ok (dict_set "toolchain" tc depspec)
     else if negb found_name_version then
       Ok (dict_set "version" val (dict_set "name" (VStr key) depspec))
     else Raise DependencyUnexpectedPair) ;;
  Ok (depspec,
      if dict_has "name" depspec && dict_has "version" depspec then true
      else found_name_version).

Fixpoint to_dependency_loop (st : pydict * bool) (items : pydict)
  : result (pydict * bool) :=
  match items with
  | [] => Ok st
  | item :: rest =>
      st' <- to_dependency_step st item ;; to_dependency_loop st' rest
  end.

(** The "old" format of [to_dependency]: a tuple or list [dep], read by
    position under the three guards on [len(dep)]. *)
Definition to_dependency_seq (dep : value) : result pydict :=
  let depspec := [] in
  n <- len dep ;;
  depspec <-
    (if Nat.leb 2 n then
       d0 <- getitem dep 0 ;;
       d1 <- getitem dep 1 ;;
       Ok (dict_set "version" d1 (dict_set "name" d0 depspec))
     else Ok depspec) ;;
  depspec <-
    (if Nat.leb 3 n then
       d2 <- getitem dep 2 ;; Ok (dict_set "versionsuffix" d2 depspec)
     else Ok depspec) ;;
  if Nat.leb 4 n then
    d3 <- getitem dep 3 ;; Ok (dict_set "toolchain" d3 depspec)
  else Ok depspec.

(** [to_dependency(dep)]. *)
Definition to_dependency (dep : value) : result value :=
  match dep with
  | VDict d =>
      st <- to_dependency_loop ([], false) d ;;
      if negb (snd st) then Raise DependencyNoNameVersion
      else Ok (VDict (fst st))
  | VTuple _ | VList _ =>
      depspec <- to_dependency_seq dep ;; Ok (VDict depspec)
  | _ => Raise DependencyUnsupported
  end.

(** [to_dependencies(dep_list)]. *)
Definition to_dependencies (dep_list : value) : result value :=
  deps <- iter dep_list ;;
  res <- comprehension to_dependency deps ;;
  Ok (VList res).

(** ** The converter and the parameter checker *)

(** A dict key must be hashable: lists and dicts are not, a tuple is when
    its members are. *)
Fixpoint hashable (v : value) : bool :=
  match v with
  | VList _ | VDict _ => false
  | VTuple l => forallb hashable l
  | _ => true
  end.

Fixpoint lookup {A : Type} (k : value) (table : list (value * A))
  : option A :=
  match table with
  | [] => None
  | (k', a) :: r => if value_eqb k k' then Some a else lookup k r
  end.

Section Converter.
Variables easy_types checkable_types : list value.
Variable type_conversion_functions : list (value * (value -> result value)).
Variable types : list (string * value).

(** [convert_value_type(val, typ)]. *)
Definition convert_value_type (depth : nat) (val typ : value)
  : result value :=
  easy <- (if contains typ easy_types then isinstance val typ
           else Ok false) ;;
  if easy then Ok val
  else
    checkable <-
      (if contains typ checkable_types
       then is_value_of_type easy_types checkable_types depth val typ
       else Ok false) ;;
    if checkable then Ok val
    else if negb (hashable typ) then Raise TypeError
    else
      match lookup typ type_conversion_functions with
      | Some func =>
          res <- match func val with
                 | Ok res => Ok res
                 | Raise err => Raise (ConversionFailed err)
                 end ;;
          ok <- isinstance res typ ;;
          if ok then Ok res else Raise ConversionUnexpected
      | None => Raise NoConversionFunction
      end.

(** [TYPES.get(key)]: [None] when [key] has no entry. *)
Definition types_get (key : string) : value :=
  match dict_find key types with
  | Some expected_type => expected_type
  | None => VNone
  end.

Definition is_None (v : value) : bool :=
  match v with
  | VNone => true
  | _ => false
  end.

(** [check_type_of_param_value(key, val, auto_convert)]. *)
Definition check_type_of_param_value
    (depth : nat) (key : string) (val : value) (auto_convert : bool)
  : result (bool * value) :=
  let expected_type := types_get key in
  type_ok <-
    (if is_None expected_type then Ok true
     else is_value_of_type easy_types checkable_types depth val
                           expected_type) ;;
  if type_ok then Ok (true, val)
  else if auto_convert then
    newval <- convert_value_type depth val expected_type ;;
    Ok (true, newval)
  else Ok (false, VNone).
End Converter.

Section Builtins.
(** The interpreter's [str], [int] and [float], applied to a value. *)
Variables str_builtin int_builtin float_builtin : value -> result value.

Definition TYPE_CONVERSION_FUNCTIONS
  : list (value * (value -> result value)) :=
  [(VClass basestring, str_builtin);
   (VClass float, float_builtin);
   (VClass int, int_builtin);
   (VClass str, str_builtin);
   (DEPENDENCIES, to_dependencies);
   (NAME_VERSION_DICT, to_name_version_dict)].

(** The converter and the checker on the module's own tables. *)
Definition convert : nat -> value -> value -> result value :=
  convert_value_type EASY_TYPES CHECKABLE_TYPES TYPE_CONVERSION_FUNCTIONS.

Definition check : nat -> string -> value -> bool -> result (bool * value) :=
  check_type_of_param_value EASY_TYPES CHECKABLE_TYPES
                            TYPE_CONVERSION_FUNCTIONS TYPES.
End Builtins.

Definition matches : nat -> value -> value -> result bool :=
  is_value_of_type EASY_TYPES CHECKABLE_TYPES.

(** ** The dependency graph of [scripts/reverse_dependencies.py] *)

(** The truth value of a value in a condition. *)
Definition truthy (v : value) : bool :=
  match v with
  | VNone => false
  | VInt z => negb (Z.eqb z 0)
  | VFloat q => negb (Qeq_bool q (inject_Z 0))
  | VStr s => negb (String.eqb s "")
  | VList l | VTuple l => negb (Nat.eqb (List.length l) 0)
  | VDict d => negb (Nat.eqb (List.length d) 0)
  | VClass _ => true
  end.

(** [depgraph[name][key]]. *)
Definition getitem2 (depgraph : pydict) (name key : string) : result value :=
  vertex <- dict_get name depgraph ;;
  match vertex with
  | VDict vd => dict_get key vd
  | _ => Raise TypeError
  end.

(** [depgraph[name][key] = val].  The graph is threaded through as a
    value: no two of its entries share a dict or a list. *)
Definition setitem2 (depgraph : pydict) (name key : string) (val : value)
  : result pydict :=
  vertex <- dict_get name depgraph ;;
  match vertex with
  | VDict vd => Ok (dict_set name (VDict (dict_set key val vd)) depgraph)
  | _ => Raise TypeError
  end.

(** [depgraph[name][key].append(x)]. *)
Definition append2 (depgraph : pydict) (name key : string) (x : value)
  : result pydict :=
  l <- getitem2 depgraph name key ;;
  match l with
  | VList xs => setitem2 depgraph name key (VList (xs ++ [x]))
  | _ => Raise AttributeError
  end.

(** A [for] loop over [l] that updates the graph. *)
Fixpoint for_each (body : pydict -> value -> result pydict)
    (l : list value) (depgraph : pydict) : result pydict :=
  match l with
  | [] => Ok depgraph
  | x :: r => depgraph <- body depgraph x ;; for_each body r depgraph
  end.

(** [update_vertex(depgraph, name, ec_file, dependencies, dependant)], the
    three optional arguments being [None] when left out; the updated graph
    is the result.  Names are strings, as the keys of every dict here. *)
Fixpoint update_vertex (depth : nat) (depgraph : pydict) (name : string)
    (ec_file dependencies dependant : value) : result pydict :=
  match depth with
  | O => Raise RuntimeError
  | S depth' =>
      depgraph <-
        (if negb (dict_has name depgraph) then
           let depgraph := dict_set name (VDict []) depgraph in
           depgraph <- setitem2 depgraph name "dependencies" (VList []) ;;
           setitem2 depgraph name "dependants" (VList [])
         else Ok depgraph) ;;
      depgraph <-
        (if truthy ec_file then setitem2 depgraph name "spec" ec_file
         else Ok depgraph) ;;
      depgraph <-
        (if truthy dependencies then
           depgraph <- setitem2 depgraph name "dependencies" dependencies ;;
           deps <- iter dependencies ;;
           for_each
             (fun depgraph dependency =>
                match dependency with
                | VStr dependency =>
                    spec <- getitem2 depgraph name "spec" ;;
                    update_vertex depth' depgraph dependency VNone VNone spec
                | _ => Raise TypeError
                end)
             deps depgraph
         else Ok depgraph) ;;
      if truthy dependant then append2 depgraph name "dependants" dependant
      else Ok depgraph
  end.

(** The script's loop over the candidate easyconfig files, on what
    [get_names] returned for each: the file, its name and the names of its
    dependencies. *)
Fixpoint add_candidates (depth : nat)
    (candidates : list (string * (string * list string)))
    (depgraph : pydict) : result pydict :=
  match candidates with
  | [] => Ok depgraph
  | (ec_file, (name, dep_names)) :: rest =>
      depgraph <- update_vertex depth depgraph name (VStr ec_file)
                                (VList (map VStr dep_names)) VNone ;;
      add_candidates depth rest depgraph
  end.

(** The script's loop over [ecs] that gathers the dependants. *)
Fixpoint collect_dependants (ecs : list string) (depgraph : pydict)
    (dependants : list value) : result (list value) :=
  match ecs with
  | [] => Ok dependants
  | name :: rest =>
      dependants <-
        (if dict_has name depgraph then
           l <- getitem2 depgraph name "dependants" ;;
           more <- iter l ;;
           Ok (dependants ++ more)
         else Ok dependants) ;;
      collect_dependants rest depgraph dependants
  end.

(** A field of a vertex, when there is one. *)
Definition field (depgraph : pydict) (name key : string) : option value :=
  match dict_find name depgraph with
  | Some (VDict vd) => dict_find key vd
  | _ => None
  end.

(** The dependants recorded for a name; none when the name is no vertex. *)
Definition dependants_of (depgraph : pydict) (name : string) : list value :=
  match field depgraph name "dependants" with
  | Some (VList l) => l
  | _ => []
  end.

(** A graph as [update_vertex] builds it: every vertex is a dict with a
    list of dependants. *)
Definition graph_wf (depgraph : pydict) : Prop :=
  forall name v, dict_find name depgraph = Some v ->
    exists vd l, v = VDict vd /\ dict_find "dependants" vd = Some (VList l).

(** How often [name] occurs in [names]. *)
Definition occurrences (name : string) (names : list string) : nat :=
  count_occ string_dec names name.

(** [depgraph'] is [depgraph] with the vertex [name] set to the dict [vd]. *)
Definition vertex_set (depgraph : pydict) (name : string) (vd : pydict)
    (depgraph' : pydict) : Prop :=
  forall n, dict_find n depgraph'
            = if String.eqb n name then Some (VDict vd)
              else dict_find n depgraph.

(** ** Notions used in the statements *)

(** A value built from tuples, lists, strings, classes and [None] only: on
    such a value [==] is identity of content. *)
Fixpoint plain (v : value) : bool :=
  match v with
  | VNone | VStr _ | VClass _ => true
  | VList l | VTuple l => forallb plain l
  | _ => false
  end.

(** The requirement predicates of a mapping type as the specification
    states them (4.2), for a dict [d], the requirements [extra_reqs] of the
    type and a matcher [m]. *)
Definition members (req : option value) : list value :=
  match req with
  | Some (VTuple l) | Some (VList l) => l
  | _ => []
  end.

(** [key_types]: every key matches at least one type of the set. *)
Definition spec_key_types (m : value -> value -> result bool)
    (extra_reqs d : pydict) : Prop :=
  forall k, In k (keys d) ->
    exists t, In t (members (dict_find "key_types" extra_reqs))
              /\ m (VStr k) t = Ok true.

(** [opt_keys]: every key is a member of required_keys U opt_keys. *)
Definition spec_opt_keys (extra_reqs d : pydict) : Prop :=
  forall k, In k (keys d) ->
    In (VStr k) (members (dict_find "required_keys" extra_reqs))
    \/ In (VStr k) (members (dict_find "opt_keys" extra_reqs)).

(** [required_keys]: every name in the set is present as a key. *)
Definition spec_required_keys (extra_reqs d : pydict) : Prop :=
  forall name, In name (members (dict_find "required_keys" extra_reqs)) ->
    exists k, name = VStr k /\ In k (keys d).

(** [value_types]: every value matches at least one type of the set. *)
Definition spec_value_types (m : value -> value -> result bool)
    (extra_reqs d : pydict) : Prop :=
  forall v, In v (values d) ->
    exists t, In t (members (dict_find "value_types" extra_reqs))
              /\ m v t = Ok true.

(** The predicate of the requirement called [name]. *)
Definition spec_requirement (m : value -> value -> result bool)
    (extra_reqs : pydict) (name : string) (d : pydict) : Prop :=
  if String.eqb name "key_types" then spec_key_types m extra_reqs d
  else if String.eqb name "opt_keys" then spec_opt_keys extra_reqs d
  else if String.eqb name "required_keys" then spec_required_keys extra_reqs d
  else if String.eqb name "value_types" then spec_value_types m extra_reqs d
  else False.



(** Two values with the same content: equal, or a list and the tuple of
    the same elements. *)
Inductive same_value : value -> value -> Prop :=
| same_value_refl v : same_value v v
| same_list_tuple l : same_value (VList l) (VTuple l)
| same_tuple_list l : same_value (VTuple l) (VList l).

(** Two requirement descriptions with the same content: the same names,
    each with the same value. *)
Definition same_content (d1 d2 : pydict) : Prop :=
  forall k,
    match dict_find k d1, dict_find k d2 with
    | Some v1, Some v2 => same_value v1 v2
    | None, None => True
    | _, _ => False
    end.

(** What [dict2tuple] makes of an item. *)
Definition hashable_item (kv : string * value) : string * value :=
  let (key, val) := kv in
  (key, match val with
        | VList l => VTuple l
        | _ => val
        end).

(** A builtin for the examples that never call one. *)
Definition unused_builtin (_ : value) : result value := Raise TypeError.

(** What the three registered compound types accept, written out. *)
Definition DEPENDENCY_KEYS : list string :=
  ["name"; "version"; "versionsuffix"; "toolchain"].

Definition has_keys (ks : list string) (d : pydict) : bool :=
  forallb (fun k => dict_has k d) ks.

Definition keys_among (ks : list string) (d : pydict) : bool :=
  forallb (fun k => existsb (String.eqb k) ks) (keys d).

Definition is_dependency_dict (v : value) : bool :=
  match v with
  | VDict d => keys_among DEPENDENCY_KEYS d && has_keys ["name"; "version"] d
  | _ => false
  end.

Definition is_name_version_dict (v : value) : bool :=
  match v with
  | VDict d =>
      keys_among ["name"; "version"] d && has_keys ["name"; "version"] d
      && forallb (fun x => isinstance_class x str) (values d)
  | _ => false
  end.

Definition is_dependencies (v : value) : bool :=
  match v with
  | VList l => forallb is_dependency_dict l
  | _ => false
  end.

(** [except Exception as err: raise EasyBuildError(...)] around a call. *)
Definition wrap_failure (r : result value) : result value :=
  match r with
  | Ok res => Ok res
  | Raise err => Raise (ConversionFailed err)
  end.

(** The value [dict2tuple] stores for [val]. *)
Definition tuple_if_list (val : value) : value :=
  match val with
  | VList l => VTuple l
  | _ => val
  end.

(** The number of occurrences of [c] in [s]. *)
Fixpoint count_char (c : ascii) (s : string) : nat :=
  match s with
  | EmptyString => 0
  | String c' r => (if Ascii.eqb c' c then 1 else 0) + count_char c r
  end.

(** [sep.join(l)]. *)
Fixpoint join (sep : string) (l : list string) : string :=
  match l with
  | [] => EmptyString
  | [x] => x
  | x :: r => x ++ sep ++ join sep r
  end.

(** A dependency specification in canonical form: distinct keys among the
    four known ones, name and version among them, and a toolchain, when
    there is one, that is a dict with exactly the keys name and version. *)
Definition canonical_dependency (d : pydict) : Prop :=
  dict_wf d
  /\ keys_among DEPENDENCY_KEYS d = true
  /\ has_keys ["name"; "version"] d = true
  /\ forall tc, dict_find "toolchain" d = Some tc ->
       exists t, tc = VDict t /\ Permutation (keys t) ["name"; "version"].

(** A key [to_dependency] reads as a name: none of the four known keys. *)
Definition free_key (k : string) : bool :=
  negb (existsb (String.eqb k) DEPENDENCY_KEYS).

(** The test ['name' in depspec and 'version' in depspec]. *)
Definition both_found (depspec : pydict) : bool :=
  dict_has "name" depspec && dict_has "version" depspec.

(** What the loop of [to_dependency] keeps true of its state. *)
Definition loop_invariant (st : pydict * bool) : Prop :=
  dict_wf (fst st)
  /\ keys_among DEPENDENCY_KEYS (fst st) = true
  /\ snd st = both_found (fst st)
  /\ forall tc, dict_find "toolchain" (fst st) = Some tc ->
       exists t, tc = VDict t /\ Permutation (keys t) ["name"; "version"].

(** * Properties *)

(** ** Basic facts about the result monad and the comprehensions *)

Lemma comprehension_pure {A B : Type} (f : A -> B) (l : list A) :
  comprehension (fun x => Ok (f x)) l = Ok (map f l).
Proof.
  induction l as [|x r IH]; simpl; [reflexivity|].
  rewrite IH. reflexivity.
Qed.

Lemma comprehension_ext {A B : Type} (f g : A -> result B) (l : list A) :
  (forall x, In x l -> f x = g x) -> comprehension f l = comprehension g l.
Proof.
  induction l as [|x r IH]; simpl; intros H; [reflexivity|].
  rewrite (H x (or_introl eq_refl)), IH; auto.
Qed.

Lemma all_map {A : Type} (f : A -> bool) (l : list A) :
  all (map f l) = forallb f l.
Proof.
  unfold all. induction l as [|x r IH]; simpl; congruence.
Qed.

Lemma forallb_over_map {A B : Type} (g : A -> B) (f : B -> bool)
    (l : list A) :
  forallb f (map g l) = forallb (fun x => f (g x)) l.
Proof.
  induction l as [|x r IH]; simpl; congruence.
Qed.

Lemma value_eqb_VStr (a b : string) :
  value_eqb (VStr a) (VStr b) = String.eqb a b.
Proof. reflexivity. Qed.

Lemma contains_VStr (k : string) (l : list string) :
  contains (VStr k) (map VStr l) = existsb (String.eqb k) l.
Proof.
  unfold contains. induction l as [|x r IH]; cbn [existsb map];
    [reflexivity|].
  rewrite IH. reflexivity.
Qed.

(** ** The easy types *)

(** C5, as stated, fails: matching a float against [float] raises. *)
Lemma matches_float_on_float :
  matches 1000 (VFloat (3 # 2)) (VClass float) = Raise UnknownType.
Proof. reflexivity. Qed.

(** C5, amended: for each of the six classes of [EASY_TYPES] the matcher
    answers by [isinstance] and raises nothing; [float] is not among them,
    and matching against it raises for every value. *)
Theorem matches_atomic (depth : nat) (v : value) (c : pyclass) :
  matches (S depth) v (VClass c)
  = if pyclass_eqb c float then Raise UnknownType
    else Ok (isinstance_class v c).
Proof. destruct c; reflexivity. Qed.

(** ** The converter's check of a coercion result *)

(** C1: the result of a coercion function is checked with [isinstance]
    against the target tuple, which a dict passes on the tuple's first
    member; a name/version dict with integer values is returned by [convert]
    although the matcher rejects it. *)
Theorem convert_returns_unmatched (sb ib fb : value -> result value)
    (depth : nat) :
  let v := VDict [("name", VInt 1); ("version", VInt 2)] in
  convert sb ib fb (S (S depth)) v NAME_VERSION_DICT = Ok v
  /\ matches (S (S depth)) v NAME_VERSION_DICT = Ok false.
Proof. split; reflexivity. Qed.

(** C9: converting twice is not converting once: a one-element tuple in a
    dependency list is coerced to an empty dict, which the second
    conversion refuses. *)
Theorem convert_not_idempotent (sb ib fb : value -> result value)
    (depth : nat) :
  let v := VList [VTuple [VStr "a"]] in
  convert sb ib fb (S (S depth)) v DEPENDENCIES = Ok (VList [VDict []])
  /\ convert sb ib fb (S (S depth)) (VList [VDict []]) DEPENDENCIES
     = Raise (ConversionFailed DependencyNoNameVersion).
Proof. split; reflexivity. Qed.

(** ** Dependencies in the old format *)

(** C2, as stated, fails: a list of five fields is accepted, its fifth
    field dropped. *)
Lemma to_dependency_five_fields :
  to_dependency (VList [VStr "a"; VStr "1"; VStr "-x"; VStr "t"; VStr "e"])
  = Ok (VDict [("name", VStr "a"); ("version", VStr "1");
               ("versionsuffix", VStr "-x"); ("toolchain", VStr "t")]).
Proof. reflexivity. Qed.

(** C2, amended: a list or tuple of two or more fields is always accepted;
    its first four fields become name, version, versionsuffix and toolchain
    (the last two when present), and further fields are dropped. *)
Theorem to_dependency_positional (d0 d1 : value) (rest : list value) :
  let depspec :=
    VDict (("name", d0) :: ("version", d1) ::
           match rest with
           | [] => []
           | d2 :: rest' =>
               ("versionsuffix", d2) ::
               match rest' with
               | [] => []
               | d3 :: _ => [("toolchain", d3)]
               end
           end) in
  to_dependency (VList (d0 :: d1 :: rest)) = Ok depspec
  /\ to_dependency (VTuple (d0 :: d1 :: rest)) = Ok depspec.
Proof.
  destruct rest as [|d2 [|d3 rest]]; split; reflexivity.
Qed.

(** ** The parameter checker *)

Lemma TYPES_not_None (key : string) (T : value) :
  dict_find key TYPES = Some T -> is_None T = false.
Proof.
  unfold TYPES. cbn [dict_find].
  repeat match goal with
         | |- (if ?b then _ else _) = _ -> _ => destruct b
         end; intros H; inversion H; reflexivity.
Qed.

Section Checker.
Variables sb ib fb : value -> result value.

Lemma check_unregistered depth key val auto_convert :
  dict_find key TYPES = None ->
  check sb ib fb depth key val auto_convert = Ok (true, val).
Proof.
  intros H. unfold check, check_type_of_param_value, types_get.
  rewrite H. reflexivity.
Qed.

Lemma check_registered depth key val auto_convert T :
  dict_find key TYPES = Some T ->
  check sb ib fb depth key val auto_convert =
  (type_ok <- matches depth val T ;;
   if type_ok then Ok (true, val)
   else if auto_convert then
     newval <- convert sb ib fb depth val T ;; Ok (true, newval)
   else Ok (false, VNone)).
Proof.
  intros H. unfold check, check_type_of_param_value, types_get.
  rewrite H, (TYPES_not_None key T H). reflexivity.
Qed.

(** C7: an unregistered parameter passes unchanged; a registered one
    passes unchanged when the matcher accepts the value; when the matcher
    rejects it, with [auto_convert] the outcome is the converter's, a
    converted value with [True] or the converter's exception, and without
    [auto_convert] it is a pair whose first component is [False]. *)
Theorem check_cases (depth : nat) (key : string) (val : value) :
  (dict_find key TYPES = None ->
   forall auto_convert,
     check sb ib fb depth key val auto_convert = Ok (true, val))
  /\ (forall T, dict_find key TYPES = Some T ->
      (matches depth val T = Ok true ->
       forall auto_convert,
         check sb ib fb depth key val auto_convert = Ok (true, val))
      /\ (matches depth val T = Ok false ->
          (forall newval, convert sb ib fb depth val T = Ok newval ->
             check sb ib fb depth key val true = Ok (true, newval))
          /\ (forall err, convert sb ib fb depth val T = Raise err ->
                check sb ib fb depth key val true = Raise err)
          /\ (exists out,
                check sb ib fb depth key val false = Ok (false, out)))).
Proof.
  split.
  - intros H ac. apply check_unregistered, H.
  - intros T HT. split.
    + intros Hm ac. rewrite (check_registered _ _ _ _ T HT), Hm.
      reflexivity.
    + intros Hm. repeat split.
      * intros newval Hc. rewrite (check_registered _ _ _ _ T HT), Hm.
        cbn [bind]. rewrite Hc. reflexivity.
      * intros err Hc. rewrite (check_registered _ _ _ _ T HT), Hm.
        cbn [bind]. rewrite Hc. reflexivity.
      * exists VNone. rewrite (check_registered _ _ _ _ T HT), Hm.
        reflexivity.
Qed.

(** C10: when the parameter has an expected type, the matcher rejects the
    value and [auto_convert] is off, the checker returns [(False, None)]:
    the second component is [None], not the value. *)
Theorem check_failed_gives_None (depth : nat) (key : string)
    (val T : value) :
  dict_find key TYPES = Some T ->
  matches depth val T = Ok false ->
  check sb ib fb depth key val false = Ok (false, VNone).
Proof.
  intros HT Hm. rewrite (check_registered _ _ _ _ T HT), Hm. reflexivity.
Qed.
End Checker.

Lemma check_cases_witness :
  check unused_builtin unused_builtin unused_builtin 1000
        "nonexistent_param" (VInt 42) false = Ok (true, VInt 42)
  /\ check unused_builtin unused_builtin unused_builtin 1000
           "toolchain" (VStr "intel, 2015a") true
     = Ok (true, VDict [("name", VStr "intel"); ("version", VStr "2015a")])
  /\ check unused_builtin unused_builtin unused_builtin 1000
           "toolchain"
           (VDict [("name", VStr "intel"); ("version", VStr "2015a")]) false
     = Ok (true, VDict [("name", VStr "intel"); ("version", VStr "2015a")]).
Proof.
  split; [|split].
  - apply (proj1 (check_cases unused_builtin unused_builtin unused_builtin
                              1000 "nonexistent_param" (VInt 42))).
    reflexivity.
  - apply (proj1 (proj2 (proj2 (check_cases
             unused_builtin unused_builtin unused_builtin
             1000 "toolchain" (VStr "intel, 2015a"))
             NAME_VERSION_DICT eq_refl) eq_refl)).
    reflexivity.
  - apply (proj1 (proj2 (check_cases
             unused_builtin unused_builtin unused_builtin 1000 "toolchain"
             (VDict [("name", VStr "intel"); ("version", VStr "2015a")]))
             NAME_VERSION_DICT eq_refl)).
    reflexivity.
Defined.

Lemma check_failed_gives_None_witness :
  check unused_builtin unused_builtin unused_builtin 1000
        "toolchain" (VStr "intel, 2015a") false = Ok (false, VNone).
Proof.
  apply (check_failed_gives_None unused_builtin unused_builtin
           unused_builtin 1000 "toolchain" (VStr "intel, 2015a")
           NAME_VERSION_DICT); reflexivity.
Defined.

(** ** Defective type specifications *)

Section Defects.
Variables easy_types checkable_types : list value.

Local Abbreviation matcher :=
  (is_value_of_type easy_types checkable_types).

(** The unfolding of the matcher on a registered compound type. *)
Lemma is_value_of_type_compound depth val T parent_type reqs extra_reqs :
  contains T easy_types = false ->
  contains T checkable_types = true ->
  getitem T 0 = Ok parent_type ->
  getitem T 1 = Ok reqs ->
  dict_of reqs = Ok extra_reqs ->
  matcher (S depth) val T =
  (type_ok <- isinstance val parent_type ;;
   if type_ok then
     extra_req_checkers <-
       checkers_for (matcher depth) extra_reqs parent_type ;;
     check_requirements extra_req_checkers val (keys extra_reqs) type_ok
   else Ok false).
Proof.
  intros He Hc H0 H1 Hd. cbn [is_value_of_type].
  rewrite He, Hc, H0. cbn [bind]. rewrite H1. cbn [bind]. rewrite Hd.
  reflexivity.
Qed.

(** An unknown requirement makes the loop over the requirements raise,
    there or earlier. *)
Lemma check_requirements_unknown checkers val er_keys er_key :
  In er_key er_keys -> checkers er_key = None ->
  forall type_ok,
    exists err, check_requirements checkers val er_keys type_ok = Raise err.
Proof.
  intros Hin Hnone. induction er_keys as [|k rest IH]; [contradiction|].
  intros type_ok. cbn [check_requirements].
  destruct (checkers k) as [checker|] eqn:Hk.
  - destruct (checker val) as [check_ok|err]; cbn [bind].
    + destruct Hin as [->|Hin]; [congruence|]. apply IH, Hin.
    + eauto.
  - eauto.
Qed.

(** X24: how the matcher would treat a defective compound type if one
    were put in [CHECKABLE_TYPES]: the parent type is tested first, so the
    matcher raises (for an unsupported parent, or at or before an unknown
    requirement) only when the value is an instance of the parent type, and
    returns false, raising nothing, when it is not.  A type that is in
    neither list makes it raise for every value. *)
Theorem defective_spec_raises (depth : nat) (val T : value) :
  (contains T easy_types = false -> contains T checkable_types = false ->
   matcher (S depth) val T = Raise UnknownType)
  /\ (forall parent_type reqs extra_reqs is_instance,
        contains T easy_types = false ->
        contains T checkable_types = true ->
        getitem T 0 = Ok parent_type ->
        getitem T 1 = Ok reqs ->
        dict_of reqs = Ok extra_reqs ->
        isinstance val parent_type = Ok is_instance ->
        (value_eqb parent_type (VClass dict) = false ->
         value_eqb parent_type (VClass list_) = false ->
         matcher (S depth) val T =
         if is_instance then Raise UnknownParentType else Ok false)
        /\ (forall checkers er_key,
              checkers_for (matcher depth) extra_reqs parent_type
              = Ok checkers ->
              In er_key (keys extra_reqs) -> checkers er_key = None ->
              if is_instance
              then exists err, matcher (S depth) val T = Raise err
              else matcher (S depth) val T = Ok false)).
Proof.
  split.
  - intros He Hc. cbn [is_value_of_type].
    rewrite He, Hc. reflexivity.
  - intros parent_type reqs extra_reqs is_instance He Hc H0 H1 Hd Hi.
    rewrite (is_value_of_type_compound depth val T parent_type reqs
               extra_reqs He Hc H0 H1 Hd), Hi.
    cbn [bind]. split.
    + intros Hnd Hnl. unfold checkers_for. rewrite Hnd, Hnl.
      destruct is_instance; reflexivity.
    + intros checkers er_key Hck Hin Hnone.
      destruct is_instance; [|reflexivity].
      rewrite Hck. cbn [bind].
      apply (check_requirements_unknown checkers val _ er_key Hin Hnone).
Qed.
End Defects.

Lemma defective_spec_raises_witness :
  let bad_parent := VTuple [VClass tuple; VTuple []] in
  let bad_req :=
    VTuple [VClass dict; VTuple [VTuple [VStr "key_type"; VTuple []]]] in
  is_value_of_type EASY_TYPES CHECKABLE_TYPES 1 (VFloat 1) (VClass float)
  = Raise UnknownType
  /\ is_value_of_type EASY_TYPES [bad_parent] 1 (VTuple []) bad_parent
     = Raise UnknownParentType
  /\ is_value_of_type EASY_TYPES [bad_parent] 1 (VInt 1) bad_parent
     = Ok false
  /\ (exists err,
        is_value_of_type EASY_TYPES [bad_req] 1 (VDict []) bad_req
        = Raise err)
  /\ is_value_of_type EASY_TYPES [bad_req] 1 (VList []) bad_req = Ok false.
Proof.
  intros bad_parent bad_req. split; [|split; [|split; [|split]]].
  - apply (proj1 (defective_spec_raises EASY_TYPES CHECKABLE_TYPES 0
                    (VFloat 1) (VClass float))); reflexivity.
  - apply (proj1 (proj2 (defective_spec_raises EASY_TYPES [bad_parent] 0
                    (VTuple []) bad_parent)
                    (VClass tuple) (VTuple []) [] true
                    eq_refl eq_refl eq_refl eq_refl eq_refl eq_refl));
      reflexivity.
  - apply (proj1 (proj2 (defective_spec_raises EASY_TYPES [bad_parent] 0
                    (VInt 1) bad_parent)
                    (VClass tuple) (VTuple []) [] false
                    eq_refl eq_refl eq_refl eq_refl eq_refl eq_refl));
      reflexivity.
  - apply (proj2 (proj2 (defective_spec_raises EASY_TYPES [bad_req] 0
                    (VDict []) bad_req)
                    (VClass dict) _ [("key_type", VTuple [])] true
                    eq_refl eq_refl eq_refl eq_refl eq_refl eq_refl)
                 _ "key_type" eq_refl); [left|]; reflexivity.
  - apply (proj2 (proj2 (defective_spec_raises EASY_TYPES [bad_req] 0
                    (VList []) bad_req)
                    (VClass dict) _ [("key_type", VTuple [])] false
                    eq_refl eq_refl eq_refl eq_refl eq_refl eq_refl)
                 _ "key_type" eq_refl); [left|]; reflexivity.
Defined.

(** ** The requirements of mapping types *)

Section Requirements.
Variable rec : value -> value -> result bool.
Variable extra_reqs : pydict.

(** The [opt_keys] requirement: every key of the value is looked up in
    [required_keys + opt_keys]. *)
Lemma check_opt_keys_closed d required opt :
  dict_find "required_keys" extra_reqs = Some (VTuple required) ->
  dict_find "opt_keys" extra_reqs = Some (VTuple opt) ->
  check_opt_keys extra_reqs (VDict d)
  = Ok (forallb (fun k => contains (VStr k) (required ++ opt)) (keys d)).
Proof.
  intros Hr Ho. unfold check_opt_keys, keys_method, dict_get.
  rewrite Hr, Ho. cbn [bind in_sum].
  rewrite (comprehension_pure (fun k => contains k (required ++ opt))).
  cbn [bind]. rewrite all_map, forallb_over_map. reflexivity.
Qed.

(** The [required_keys] requirement: every required key is a key of the
    value. *)
Lemma check_required_keys_present d required :
  dict_find "required_keys" extra_reqs = Some (VTuple required) ->
  check_required_keys extra_reqs (VDict d)
  = Ok (forallb (fun k => contains k (map VStr (keys d))) required).
Proof.
  intros Hr. unfold check_required_keys, keys_method, dict_get, iter.
  rewrite Hr. cbn [bind].
  rewrite (comprehension_pure (fun k => contains k (map VStr (keys d)))).
  cbn [bind]. rewrite all_map. reflexivity.
Qed.
End Requirements.

(** ** Sorting by key *)

Lemma str_leb_refl (a : string) : str_leb a a = true.
Proof.
  unfold str_leb.
  destruct (String_as_OT.compare_spec a a) as [_|H|H]; try reflexivity.
  exfalso. exact (StrictOrder_Irreflexive a H).
Qed.

Lemma str_leb_total (a b : string) : str_leb a b = false -> str_leb b a = true.
Proof.
  unfold str_leb.
  destruct (String_as_OT.compare_spec a b) as [_|_|H]; try discriminate.
  intros _.
  destruct (String_as_OT.compare_spec b a) as [_|_|H']; try reflexivity.
  exfalso. exact (StrictOrder_Irreflexive a (StrictOrder_Transitive _ _ _ H' H)).
Qed.

Lemma str_leb_trans (a b c : string) :
  str_leb a b = true -> str_leb b c = true -> str_leb a c = true.
Proof.
  unfold str_leb.
  destruct (String_as_OT.compare_spec a b) as [->|Hab|_]; try discriminate;
    [auto|].
  destruct (String_as_OT.compare_spec b c) as [<-|Hbc|_]; try discriminate.
  - intros _ _.
    destruct (String_as_OT.compare_spec a b) as [_|_|H]; try reflexivity.
    exfalso.
    exact (StrictOrder_Irreflexive a (StrictOrder_Transitive _ _ _ Hab H)).
  - intros _ _. pose proof (StrictOrder_Transitive _ _ _ Hab Hbc) as Hac.
    destruct (String_as_OT.compare_spec a c) as [_|_|H]; try reflexivity.
    exfalso.
    exact (StrictOrder_Irreflexive a (StrictOrder_Transitive _ _ _ Hac H)).
Qed.

Lemma str_leb_antisym (a b : string) :
  str_leb a b = true -> str_leb b a = true -> a = b.
Proof.
  unfold str_leb.
  destruct (String_as_OT.compare_spec a b) as [->|Hab|_]; try discriminate;
    [reflexivity|].
  destruct (String_as_OT.compare_spec b a) as [->|Hba|_]; try discriminate;
    [reflexivity|].
  intros _ _. exfalso.
  exact (StrictOrder_Irreflexive a (StrictOrder_Transitive _ _ _ Hab Hba)).
Qed.

Section SortedFacts.
Context {A : Type} (key : A -> string).

Lemma insert_sorted_perm x l : Permutation (insert_sorted key x l) (x :: l).
Proof.
  induction l as [|y r IH]; cbn [insert_sorted]; [reflexivity|].
  destruct (str_leb (key x) (key y)); [reflexivity|].
  rewrite IH. apply perm_swap.
Qed.

Lemma sorted_perm l : Permutation (sorted key l) l.
Proof.
  induction l as [|x r IH]; cbn [sorted fold_right]; [reflexivity|].
  fold (sorted key r). rewrite insert_sorted_perm, IH. reflexivity.
Qed.

Lemma insert_sorted_ordered x l :
  StronglySorted (key_le key) l -> StronglySorted (key_le key) (insert_sorted key x l).
Proof.
  induction l as [|y r IH]; cbn [insert_sorted]; intros Hs.
  - constructor; constructor.
  - destruct (str_leb (key x) (key y)) eqn:Hxy.
    + constructor; [exact Hs|]. constructor; [exact Hxy|].
      inversion Hs as [|? ? _ Hall]; subst.
      eapply Forall_impl; [|exact Hall].
      intros z Hz. unfold key_le in *. eapply str_leb_trans; eassumption.
    + inversion Hs as [|? ? Hr Hall]; subst.
      constructor; [apply IH, Hr|].
      apply Forall_forall. intros z Hz.
      apply (Permutation_in _ (insert_sorted_perm x r)) in Hz.
      destruct Hz as [<-|Hz]; [apply str_leb_total, Hxy|].
      rewrite Forall_forall in Hall. apply Hall, Hz.
Qed.

Lemma sorted_ordered l : StronglySorted (key_le key) (sorted key l).
Proof.
  induction l as [|x r IH]; cbn [sorted fold_right]; [constructor|].
  apply insert_sorted_ordered, IH.
Qed.

(** Two items of a list whose keys are distinct are equal when their keys
    are. *)
Lemma same_key_same_item l x y :
  NoDup (map key l) -> In x l -> In y l -> key x = key y -> x = y.
Proof.
  induction l as [|z r IH]; cbn [map]; intros Hnd Hx Hy Hk; [contradiction|].
  inversion Hnd as [|? ? Hnotin Hnd']; subst.
  destruct Hx as [->|Hx], Hy as [->|Hy]; auto.
  - exfalso. apply Hnotin. rewrite Hk. apply in_map, Hy.
  - exfalso. apply Hnotin. rewrite <- Hk. apply in_map, Hx.
Qed.

(** A list with distinct keys has one sorted arrangement. *)
Lemma ordered_unique l1 l2 :
  NoDup (map key l1) -> Permutation l1 l2 ->
  StronglySorted (key_le key) l1 -> StronglySorted (key_le key) l2 -> l1 = l2.
Proof.
  revert l2. induction l1 as [|x r1 IH]; intros l2 Hnd Hp Hs1 Hs2.
  - apply Permutation_nil in Hp. congruence.
  - destruct l2 as [|y r2];
      [apply Permutation_sym, Permutation_nil in Hp; discriminate|].
    assert (Hxy : x = y).
    { apply (same_key_same_item (x :: r1)); auto.
      - left; reflexivity.
      - apply (Permutation_in _ (Permutation_sym Hp)). left; reflexivity.
      - apply str_leb_antisym.
        + assert (Hin : In y (x :: r1))
            by (apply (Permutation_in _ (Permutation_sym Hp)); left;
                reflexivity).
          destruct Hin as [->|Hin]; [apply str_leb_refl|].
          inversion Hs1 as [|? ? _ Hall]; subst.
          rewrite Forall_forall in Hall. apply Hall, Hin.
        + assert (Hin : In x (y :: r2))
            by (apply (Permutation_in _ Hp); left; reflexivity).
          destruct Hin as [->|Hin]; [apply str_leb_refl|].
          inversion Hs2 as [|? ? _ Hall]; subst.
          rewrite Forall_forall in Hall. apply Hall, Hin. }
    subst y. f_equal.
    inversion Hnd; inversion Hs1; inversion Hs2; subst.
    apply IH; auto. eapply Permutation_cons_inv, Hp.
Qed.

(** Sorting does not depend on the order the items come in. *)
Lemma sorted_of_permutation l1 l2 :
  NoDup (map key l1) -> Permutation l1 l2 -> sorted key l1 = sorted key l2.
Proof.
  intros Hnd Hp. apply ordered_unique.
  - eapply Permutation_NoDup; [|exact Hnd].
    apply Permutation_map, Permutation_sym, sorted_perm.
  - rewrite sorted_perm, Hp. symmetry. apply sorted_perm.
  - apply sorted_ordered.
  - apply sorted_ordered.
Qed.
End SortedFacts.

(** Sorting commutes with a change of the items that keeps their keys. *)
Lemma sorted_map {A B : Type} (keyA : A -> string) (keyB : B -> string)
    (f : A -> B) (l : list A) :
  (forall x, keyB (f x) = keyA x) ->
  map f (sorted keyA l) = sorted keyB (map f l).
Proof.
  intros Hk. induction l as [|x r IH]; cbn [sorted fold_right map];
    [reflexivity|].
  fold (sorted keyA r). fold (sorted keyB (map f r)). rewrite <- IH.
  generalize (sorted keyA r). intros l.
  induction l as [|y l' IHl]; cbn [insert_sorted map]; [reflexivity|].
  rewrite !Hk. destruct (str_leb (keyA x) (keyA y)); cbn [map];
    [reflexivity|]. rewrite IHl. reflexivity.
Qed.

(** ** The hashable encoder is canonical *)

Lemma dict_find_In k v (d : pydict) : dict_find k d = Some v -> In (k, v) d.
Proof.
  induction d as [|[k' v'] r IH]; cbn [dict_find]; [discriminate|].
  destruct (String.eqb_spec k k') as [->|_].
  - intros H. inversion H. left; reflexivity.
  - intros H. right. apply IH, H.
Qed.

Lemma In_dict_find k v (d : pydict) :
  dict_wf d -> In (k, v) d -> dict_find k d = Some v.
Proof.
  unfold dict_wf, keys.
  induction d as [|[k' v'] r IH]; cbn [dict_find map fst];
    intros Hnd Hin; [contradiction|].
  inversion Hnd as [|? ? Hnotin Hnd']; subst.
  destruct Hin as [Heq|Hin].
  - inversion Heq; subst. rewrite String.eqb_refl. reflexivity.
  - destruct (String.eqb_spec k k') as [->|_]; [|apply IH; assumption].
    exfalso. apply Hnotin.
    change k' with (fst (k', v)). apply in_map, Hin.
Qed.

Lemma same_content_sym d1 d2 : same_content d1 d2 -> same_content d2 d1.
Proof.
  intros H k. specialize (H k).
  destruct (dict_find k d1), (dict_find k d2); auto.
  destruct H; constructor.
Qed.

Lemma same_value_hashable k v1 v2 :
  same_value v1 v2 -> hashable_item (k, v1) = hashable_item (k, v2).
Proof. intros []; reflexivity. Qed.

Lemma dict2tuple_unfold d :
  dict2tuple (VDict d)
  = Ok (VTuple (map (fun kv : string * value => VTuple [VStr (fst kv); snd kv])
                    (sorted fst (map hashable_item d)))).
Proof.
  cbn [dict2tuple]. do 2 f_equal.
  rewrite <- (sorted_map fst fst hashable_item d)
    by (intros []; reflexivity).
  rewrite map_map. apply map_ext. intros [k v]. reflexivity.
Qed.

Lemma hashable_items_incl d1 d2 :
  dict_wf d1 -> same_content d1 d2 ->
  forall x, In x (map hashable_item d1) -> In x (map hashable_item d2).
Proof.
  intros Hwf Hsame x Hin. apply in_map_iff in Hin as ([k v] & <- & Hin).
  specialize (Hsame k). rewrite (In_dict_find k v d1 Hwf Hin) in Hsame.
  destruct (dict_find k d2) as [v2|] eqn:H2; [|contradiction].
  apply in_map_iff. exists (k, v2). split.
  - symmetry. apply same_value_hashable, Hsame.
  - apply dict_find_In, H2.
Qed.

Lemma hashable_items_keys d : map fst (map hashable_item d) = keys d.
Proof.
  unfold keys. rewrite map_map. apply map_ext. intros [k v]. reflexivity.
Qed.

Lemma hashable_items_perm d1 d2 :
  dict_wf d1 -> dict_wf d2 -> same_content d1 d2 ->
  Permutation (map hashable_item d1) (map hashable_item d2).
Proof.
  intros Hwf1 Hwf2 Hsame. apply NoDup_Permutation.
  - apply (NoDup_map_inv fst). rewrite hashable_items_keys. exact Hwf1.
  - apply (NoDup_map_inv fst). rewrite hashable_items_keys. exact Hwf2.
  - intros x. split.
    + apply hashable_items_incl; assumption.
    + apply hashable_items_incl; [assumption|].
      apply same_content_sym, Hsame.
Qed.

(** C8: two requirement descriptions with the same names and, under each
    name, the same value, a list counting as the tuple of its elements,
    are encoded by [dict2tuple] to the same tuple, whatever the order of
    their items; equal tuples have equal hashes under any hash function. *)
Theorem dict2tuple_canonical (d1 d2 : pydict) :
  dict_wf d1 -> dict_wf d2 -> same_content d1 d2 ->
  dict2tuple (VDict d1) = dict2tuple (VDict d2)
  /\ (exists t, dict2tuple (VDict d1) = Ok t)
  /\ forall (H : Type) (hash : result value -> H),
       hash (dict2tuple (VDict d1)) = hash (dict2tuple (VDict d2)).
Proof.
  intros Hwf1 Hwf2 Hsame.
  assert (Heq : dict2tuple (VDict d1) = dict2tuple (VDict d2)).
  { rewrite !dict2tuple_unfold. do 3 f_equal.
    apply sorted_of_permutation.
    - rewrite hashable_items_keys. exact Hwf1.
    - apply hashable_items_perm; assumption. }
  split; [exact Heq|]. split.
  - eexists. reflexivity.
  - intros H hash. rewrite Heq. reflexivity.
Qed.

Lemma dict2tuple_canonical_witness :
  dict2tuple (VDict [("required_keys", VList [VStr "name"; VStr "version"]);
                     ("opt_keys", VList []);
                     ("value_types", VList [VClass str])])
  = dict2tuple (VDict [("value_types", VTuple [VClass str]);
                       ("required_keys", VTuple [VStr "name"; VStr "version"]);
                       ("opt_keys", VList [])]).
Proof.
  apply dict2tuple_canonical.
  - repeat constructor; cbn; intuition discriminate.
  - repeat constructor; cbn; intuition discriminate.
  - intros k. cbn [dict_find].
    repeat match goal with
           | |- context [String.eqb k ?s] =>
               destruct (String.eqb_spec k s); subst; cbn
           end; try constructor; try discriminate.
Defined.

(** ** The name/version coercion *)

Lemma sorted_keys_name_version (ks : list string) :
  str_list_eqb (sorted (fun k => k) ks) ["name"; "version"] = true
  <-> Permutation ks ["name"; "version"].
Proof.
  unfold str_list_eqb. split.
  - destruct (list_eq_dec string_dec _ _) as [Heq|_]; [|discriminate].
    intros _. rewrite <- Heq. symmetry. apply sorted_perm.
  - intros Hp. apply Permutation_sym, Permutation_length_2_inv in Hp.
    destruct Hp as [->| ->]; reflexivity.
Qed.

Lemma to_name_version_dict_list (l : list value) :
  List.length l <> 2 ->
  to_name_version_dict (VList l) = Raise NameVersionListLength.
Proof.
  intros Hlen. cbn [to_name_version_dict].
  destruct (Nat.eqb_spec (List.length l) 2); [contradiction|reflexivity].
Qed.

Section NameVersion.
Variables sb ib fb : value -> result value.

(** C6: a string of two comma-separated fields and the list of the two
    fields are coerced to the same dict of the trimmed fields, as in the
    example of "gcc, 4.8.2"; a dict whose keys are exactly name and version
    is returned unchanged; a list of another length and a dict with another
    key set are refused with the coercion's own errors. *)
Theorem name_version_coercion :
  (forall s a b, split "," s = [a; b] ->
     to_name_version_dict (VStr s)
     = Ok (VDict [("name", VStr (strip a)); ("version", VStr (strip b))])
     /\ to_name_version_dict (VList [VStr a; VStr b])
        = Ok (VDict [("name", VStr (strip a)); ("version", VStr (strip b))]))
  /\ (forall depth,
        convert sb ib fb (S (S depth)) (VStr "gcc, 4.8.2") NAME_VERSION_DICT
        = Ok (VDict [("name", VStr "gcc"); ("version", VStr "4.8.2")])
        /\ convert sb ib fb (S (S depth)) (VList [VStr "gcc"; VStr "4.8.2"])
                   NAME_VERSION_DICT
           = Ok (VDict [("name", VStr "gcc"); ("version", VStr "4.8.2")])
        /\ convert sb ib fb (S (S depth))
                   (VDict [("name", VStr "foo"); ("version", VStr "1.2")])
                   NAME_VERSION_DICT
           = Ok (VDict [("name", VStr "foo"); ("version", VStr "1.2")]))
  /\ (forall d, Permutation (keys d) ["name"; "version"] ->
        to_name_version_dict (VDict d) = Ok (VDict d))
  /\ (forall l, List.length l <> 2 ->
        to_name_version_dict (VList l) = Raise NameVersionListLength
        /\ forall depth,
             convert sb ib fb (S depth) (VList l) NAME_VERSION_DICT
             = Raise (ConversionFailed NameVersionListLength))
  /\ (forall d, ~ Permutation (keys d) ["name"; "version"] ->
        to_name_version_dict (VDict d) = Raise NameVersionKeys).
Proof.
  split; [|split; [|split; [|split]]].
  - intros s a b Hs. split; [|reflexivity].
    cbn [to_name_version_dict]. rewrite Hs. reflexivity.
  - intros depth. repeat split; reflexivity.
  - intros d Hp. cbn [to_name_version_dict].
    apply sorted_keys_name_version in Hp. rewrite Hp. reflexivity.
  - intros l Hlen. split; [apply to_name_version_dict_list, Hlen|].
    intros depth. unfold convert, convert_value_type.
    change (contains NAME_VERSION_DICT EASY_TYPES) with false.
    change (contains NAME_VERSION_DICT CHECKABLE_TYPES) with true.
    cbn [bind].
    change (is_value_of_type EASY_TYPES CHECKABLE_TYPES (S depth) (VList l)
              NAME_VERSION_DICT) with (@Ok bool false).
    cbn [bind].
    change (lookup NAME_VERSION_DICT (TYPE_CONVERSION_FUNCTIONS sb ib fb))
      with (Some to_name_version_dict).
    cbv beta iota. rewrite (to_name_version_dict_list l Hlen). reflexivity.
  - intros d Hp. cbn [to_name_version_dict].
    destruct (str_list_eqb _ _) eqn:E; [|reflexivity].
    apply sorted_keys_name_version in E. contradiction.
Qed.
End NameVersion.

Lemma name_version_coercion_witness :
  to_name_version_dict (VStr "intel, 2015a")
  = Ok (VDict [("name", VStr "intel"); ("version", VStr "2015a")])
  /\ to_name_version_dict (VDict [("version", VStr "1"); ("name", VStr "a")])
     = Ok (VDict [("version", VStr "1"); ("name", VStr "a")])
  /\ to_name_version_dict (VList [VStr "a"])
     = Raise NameVersionListLength
  /\ to_name_version_dict (VDict [("name", VStr "a")])
     = Raise NameVersionKeys.
Proof.
  pose proof (name_version_coercion unused_builtin unused_builtin
                unused_builtin) as (H1 & _ & H3 & H4 & H5).
  split; [|split; [|split]].
  - exact (proj1 (H1 "intel, 2015a" "intel" " 2015a" eq_refl)).
  - apply H3. apply perm_swap.
  - apply H4. cbn. lia.
  - apply H5. intros Hp. apply Permutation_length in Hp. discriminate.
Defined.

(** * Further properties of the module *)

(** ** What the registered compound types accept *)

Lemma existsb_keys_dict_has (k : string) (d : pydict) :
  existsb (String.eqb k) (keys d) = dict_has k d.
Proof.
  unfold dict_has, keys.
  induction d as [|[k' v] r IH]; cbn [map fst existsb dict_find];
    [reflexivity|].
  destruct (String.eqb k k'); [reflexivity|exact IH].
Qed.

Lemma any_single {A : Type} (f : A -> result bool) (x : A) (b : bool) :
  f x = Ok b -> any f [x] = Ok b.
Proof. intros H. cbn [any]. rewrite H. destruct b; reflexivity. Qed.

Lemma forallb_pointwise {A : Type} (f g : A -> bool) (l : list A) :
  (forall x, f x = g x) -> forallb f l = forallb g l.
Proof.
  intros H. induction l as [|x r IH]; cbn [forallb]; [reflexivity|].
  rewrite H, IH. reflexivity.
Qed.

Lemma contains_among (ks : list string) (d : pydict) :
  forallb (fun k => contains (VStr k) (map VStr ks)) (keys d)
  = keys_among ks d.
Proof.
  unfold keys_among. apply forallb_pointwise. intros k. apply contains_VStr.
Qed.

Lemma matches_DEPENDENCY_DICT (depth : nat) (v : value) :
  matches (S depth) v DEPENDENCY_DICT = Ok (is_dependency_dict v).
Proof.
  pose (er := [("opt_keys", VTuple [VStr "versionsuffix"; VStr "toolchain"]);
               ("required_keys", VTuple [VStr "name"; VStr "version"])]).
  unfold matches.
  rewrite (is_value_of_type_compound EASY_TYPES CHECKABLE_TYPES depth v
             DEPENDENCY_DICT (VClass dict) _ er
             eq_refl eq_refl eq_refl eq_refl eq_refl).
  destruct v; try reflexivity.
  cbn [isinstance isinstance_class bind checkers_for value_eqb pyclass_eqb
       keys map fst check_requirements dict_checkers String.eqb Ascii.eqb
       Bool.eqb er].
  rewrite (check_opt_keys_closed er d [VStr "name"; VStr "version"]
             [VStr "versionsuffix"; VStr "toolchain"] eq_refl eq_refl).
  cbn [bind].
  rewrite (check_required_keys_present er d [VStr "name"; VStr "version"]
             eq_refl).
  cbn [bind check_requirements is_dependency_dict].
  unfold has_keys, DEPENDENCY_KEYS. cbn [forallb andb app].
  rewrite !contains_VStr, !existsb_keys_dict_has.
  rewrite <- (contains_among ["name"; "version"; "versionsuffix"; "toolchain"]).
  reflexivity.
Qed.

(** The [value_types] requirement with one admissible type that the
    matcher decides by [accepts]. *)
Lemma comprehension_any_single (rec : value -> value -> result bool)
    (extra_reqs : pydict) (t : value) (accepts : value -> bool)
    (els : list value) :
  dict_find "value_types" extra_reqs = Some (VTuple [t]) ->
  (forall el, rec el t = Ok (accepts el)) ->
  comprehension (any_type rec extra_reqs "value_types") els
  = Ok (map accepts els).
Proof.
  intros Hf Hrec. rewrite <- comprehension_pure.
  apply comprehension_ext. intros el _.
  unfold any_type, dict_get. rewrite Hf. cbn [bind iter].
  apply any_single, Hrec.
Qed.

Lemma matches_NAME_VERSION_DICT (depth : nat) (v : value) :
  matches (S (S depth)) v NAME_VERSION_DICT = Ok (is_name_version_dict v).
Proof.
  pose (er := [("opt_keys", VTuple []);
               ("required_keys", VTuple [VStr "name"; VStr "version"]);
               ("value_types", VTuple [VClass str])]).
  unfold matches.
  rewrite (is_value_of_type_compound EASY_TYPES CHECKABLE_TYPES (S depth) v
             NAME_VERSION_DICT (VClass dict) _ er
             eq_refl eq_refl eq_refl eq_refl eq_refl).
  destruct v; try reflexivity.
  cbn [isinstance isinstance_class bind checkers_for value_eqb pyclass_eqb
       keys map fst check_requirements dict_checkers String.eqb Ascii.eqb
       Bool.eqb er].
  rewrite (check_opt_keys_closed er d [VStr "name"; VStr "version"] []
             eq_refl eq_refl).
  cbn [bind].
  rewrite (check_required_keys_present er d [VStr "name"; VStr "version"]
             eq_refl).
  cbn [bind]. unfold check_value_types_dict. cbn [values_method bind].
  rewrite (comprehension_any_single _ er (VClass str)
             (fun el => isinstance_class el str) (values d) eq_refl)
    by (intros el; reflexivity).
  cbn [bind check_requirements is_name_version_dict].
  unfold has_keys. cbn [forallb andb app].
  rewrite !contains_VStr, !existsb_keys_dict_has, all_map.
  rewrite <- (contains_among ["name"; "version"]).
  cbn [map]. rewrite !andb_true_r, andb_assoc. reflexivity.
Qed.

Lemma matches_DEPENDENCIES (depth : nat) (v : value) :
  matches (S (S depth)) v DEPENDENCIES = Ok (is_dependencies v).
Proof.
  pose (er := [("value_types", VTuple [DEPENDENCY_DICT])]).
  unfold matches.
  rewrite (is_value_of_type_compound EASY_TYPES CHECKABLE_TYPES (S depth) v
             DEPENDENCIES (VClass list_) _ er
             eq_refl eq_refl eq_refl eq_refl eq_refl).
  destruct v; try reflexivity.
  cbn [isinstance isinstance_class bind checkers_for value_eqb pyclass_eqb
       keys map fst check_requirements list_checkers String.eqb Ascii.eqb
       Bool.eqb er].
  unfold check_value_types_list. cbn [iter bind].
  rewrite (comprehension_any_single _ er DEPENDENCY_DICT is_dependency_dict
             l eq_refl)
    by (intros el; apply matches_DEPENDENCY_DICT).
  cbn [bind check_requirements is_dependencies]. rewrite all_map.
  reflexivity.
Qed.

(** X1: matching against each of the module's three compound types raises
    nothing and is decided by the value's shape alone: a dependency dict is
    a dict with name and version whose keys are among the four known ones,
    a name/version dict has exactly these two keys and string values, and a
    dependency list is a list of dependency dicts. *)
Theorem matches_registered_compound (depth : nat) (v : value) :
  matches (S (S depth)) v DEPENDENCY_DICT = Ok (is_dependency_dict v)
  /\ matches (S (S depth)) v NAME_VERSION_DICT = Ok (is_name_version_dict v)
  /\ matches (S (S depth)) v DEPENDENCIES = Ok (is_dependencies v).
Proof.
  split; [apply matches_DEPENDENCY_DICT|].
  split; [apply matches_NAME_VERSION_DICT|apply matches_DEPENDENCIES].
Qed.

(** ** The checker and the converter on the module's tables *)

Lemma TYPES_cases (key : string) (T : value) :
  dict_find key TYPES = Some T ->
  T = DEPENDENCIES \/ T = VClass basestring \/ T = NAME_VERSION_DICT.
Proof.
  unfold TYPES. cbn [dict_find].
  repeat match goal with
         | |- (if ?b then _ else _) = _ -> _ => destruct b
         end; intros H; inversion H; auto.
Qed.

Lemma to_name_version_dict_is_dict (v r : value) :
  to_name_version_dict v = Ok r -> exists d, r = VDict d.
Proof.
  unfold to_name_version_dict.
  assert (Hl : forall l,
    (if Nat.eqb (List.length l) 2 then
       s0 <- getitem (VList l) 0 ;; name <- strip_method s0 ;;
       s1 <- getitem (VList l) 1 ;; version <- strip_method s1 ;;
       Ok (VDict [("name", name); ("version", version)])
     else Raise NameVersionListLength) = Ok r -> exists d, r = VDict d).
  { intros l. destruct (Nat.eqb _ 2); [|discriminate].
    destruct (getitem (VList l) 0) as [s0|]; [|discriminate]. cbn [bind].
    destruct (strip_method s0); [|discriminate]. cbn [bind].
    destruct (getitem (VList l) 1) as [s1|]; [|discriminate]. cbn [bind].
    destruct (strip_method s1); [|discriminate]. cbn [bind].
    intros H. inversion H. eauto. }
  destruct v; try discriminate.
  - apply Hl.
  - apply Hl.
  - destruct (str_list_eqb _ _); [|discriminate].
    intros H. inversion H. eauto.
Qed.

Lemma to_dependencies_is_list (v r : value) :
  to_dependencies v = Ok r -> exists l, r = VList l.
Proof.
  unfold to_dependencies. destruct (iter v) as [deps|]; [|discriminate].
  cbn [bind]. destruct (comprehension to_dependency deps); [|discriminate].
  intros H. inversion H. eauto.
Qed.

Section Tables.
Variables sb ib fb : value -> result value.

(** X2: without [auto_convert] the checker raises nothing, whatever the
    parameter and the value: it returns [(True, val)] or [(False, None)]. *)
Theorem check_without_conversion_returns (depth : nat) (key : string)
    (val : value) :
  exists type_ok : bool,
    check sb ib fb (S (S depth)) key val false
    = Ok (type_ok, if type_ok then val else VNone).
Proof.
  destruct (dict_find key TYPES) as [T|] eqn:HT.
  - rewrite (check_registered sb ib fb _ key val false T HT).
    destruct (TYPES_cases key T HT) as [->|[->| ->]].
    + rewrite matches_DEPENDENCIES. cbn [bind].
      exists (is_dependencies val). destruct (is_dependencies val);
        reflexivity.
    + change (matches (S (S depth)) val (VClass basestring))
        with (@Ok bool (isinstance_class val basestring)).
      cbn [bind]. exists (isinstance_class val basestring).
      destruct (isinstance_class val basestring); reflexivity.
    + rewrite matches_NAME_VERSION_DICT. cbn [bind].
      exists (is_name_version_dict val). destruct (is_name_version_dict val);
        reflexivity.
  - exists true. apply check_unregistered, HT.
Qed.

(** X3: a value the matcher accepts is returned by the converter as it
    is, whatever the target type. *)
Theorem convert_accepted_unchanged (depth : nat) (val T : value) :
  matches depth val T = Ok true -> convert sb ib fb depth val T = Ok val.
Proof.
  intros H. destruct depth as [|depth]; [discriminate|].
  unfold convert, convert_value_type.
  destruct (contains T EASY_TYPES) eqn:He.
  - unfold matches in H. cbn [is_value_of_type] in H. rewrite He in H.
    rewrite H. reflexivity.
  - cbn [bind]. destruct (contains T CHECKABLE_TYPES) eqn:Hc.
    + unfold matches in H. rewrite H. reflexivity.
    + unfold matches in H. cbn [is_value_of_type] in H.
      rewrite He, Hc in H. discriminate.
Qed.
End Tables.

Lemma convert_accepted_unchanged_witness :
  convert unused_builtin unused_builtin unused_builtin 2
          (VList [VDict [("name", VStr "a"); ("version", VStr "1")]])
          DEPENDENCIES
  = Ok (VList [VDict [("name", VStr "a"); ("version", VStr "1")]]).
Proof.
  apply (convert_accepted_unchanged unused_builtin unused_builtin
           unused_builtin 2). reflexivity.
Defined.

Lemma isinstance_compound_dict (d : pydict) (reqs : value) :
  isinstance (VDict d) (VTuple [VClass dict; reqs]) = Ok true.
Proof. reflexivity. Qed.

Lemma isinstance_compound_list (l : list value) (reqs : value) :
  isinstance (VList l) (VTuple [VClass list_; reqs]) = Ok true.
Proof. reflexivity. Qed.

Section Conversions.
Variables sb ib fb : value -> result value.

Lemma convert_NAME_VERSION_DICT (depth : nat) (val : value) :
  convert sb ib fb (S (S depth)) val NAME_VERSION_DICT
  = (if is_name_version_dict val then Ok val
     else wrap_failure (to_name_version_dict val)).
Proof.
  unfold convert, convert_value_type.
  change (contains NAME_VERSION_DICT EASY_TYPES) with false.
  change (contains NAME_VERSION_DICT CHECKABLE_TYPES) with true.
  cbn [bind].
  change (is_value_of_type EASY_TYPES CHECKABLE_TYPES)
    with matches. rewrite matches_NAME_VERSION_DICT. cbn [bind].
  destruct (is_name_version_dict val); [reflexivity|].
  change (negb (hashable NAME_VERSION_DICT)) with false.
  change (lookup NAME_VERSION_DICT (TYPE_CONVERSION_FUNCTIONS sb ib fb))
    with (Some to_name_version_dict).
  cbv beta iota.
  destruct (to_name_version_dict val) as [res|err] eqn:Hc;
    [|reflexivity].
  destruct (to_name_version_dict_is_dict val res Hc) as [d ->].
  cbn [bind wrap_failure]. unfold NAME_VERSION_DICT.
  rewrite isinstance_compound_dict. reflexivity.
Qed.

Lemma convert_DEPENDENCIES (depth : nat) (val : value) :
  convert sb ib fb (S (S depth)) val DEPENDENCIES
  = (if is_dependencies val then Ok val
     else wrap_failure (to_dependencies val)).
Proof.
  unfold convert, convert_value_type.
  change (contains DEPENDENCIES EASY_TYPES) with false.
  change (contains DEPENDENCIES CHECKABLE_TYPES) with true.
  cbn [bind].
  change (is_value_of_type EASY_TYPES CHECKABLE_TYPES)
    with matches. rewrite matches_DEPENDENCIES. cbn [bind].
  destruct (is_dependencies val); [reflexivity|].
  change (negb (hashable DEPENDENCIES)) with false.
  change (lookup DEPENDENCIES (TYPE_CONVERSION_FUNCTIONS sb ib fb))
    with (Some to_dependencies).
  cbv beta iota.
  destruct (to_dependencies val) as [res|err] eqn:Hc; [|reflexivity].
  destruct (to_dependencies_is_list val res Hc) as [l ->].
  cbn [bind wrap_failure]. unfold DEPENDENCIES.
  rewrite isinstance_compound_list. reflexivity.
Qed.

(** X4: for the two compound targets that have a coercion function the
    converter returns a matching value as it is and otherwise the
    function's result, a failure of the function being re-raised as a
    conversion failure; nothing else is raised.  A dependency dict has no
    coercion function: a value that does not match it cannot be converted. *)
Theorem convert_compound_targets (depth : nat) (val : value) :
  convert sb ib fb (S (S depth)) val NAME_VERSION_DICT
  = (if is_name_version_dict val then Ok val
     else wrap_failure (to_name_version_dict val))
  /\ convert sb ib fb (S (S depth)) val DEPENDENCIES
     = (if is_dependencies val then Ok val
        else wrap_failure (to_dependencies val))
  /\ convert sb ib fb (S (S depth)) val DEPENDENCY_DICT
     = (if is_dependency_dict val then Ok val
        else Raise NoConversionFunction).
Proof.
  split; [apply convert_NAME_VERSION_DICT|].
  split; [apply convert_DEPENDENCIES|].
  unfold convert, convert_value_type.
  change (contains DEPENDENCY_DICT EASY_TYPES) with false.
  change (contains DEPENDENCY_DICT CHECKABLE_TYPES) with true.
  cbn [bind].
  change (is_value_of_type EASY_TYPES CHECKABLE_TYPES)
    with matches. rewrite matches_DEPENDENCY_DICT. cbn [bind].
  destruct (is_dependency_dict val); reflexivity.
Qed.

(** X5: when the target is a class, a value the converter returns is an
    instance of that class, whatever the builtin conversion functions do;
    for [dict], [list] and [tuple], which have no conversion function, it
    is the value itself. *)
Theorem convert_class_result (depth : nat) (val res : value) (c : pyclass) :
  convert sb ib fb (S depth) val (VClass c) = Ok res ->
  isinstance_class res c = true
  /\ (c = dict \/ c = list_ \/ c = tuple -> res = val).
Proof.
  unfold convert, convert_value_type.
  assert (Hfun : forall func : value -> result value,
    (res' <- match func val with
             | Ok r => Ok r
             | Raise err => Raise (ConversionFailed err)
             end ;;
     ok <- isinstance res' (VClass c) ;;
     (if ok then Ok res' else Raise ConversionUnexpected)) = Ok res ->
    isinstance_class res c = true).
  { intros func. destruct (func val) as [r|]; [|discriminate].
    cbn [bind isinstance].
    destruct (isinstance_class r c) eqn:Hi; [|discriminate].
    intros H. inversion H; subst. exact Hi. }
  destruct c; cbn [contains existsb value_eqb pyclass_eqb EASY_TYPES
                   CHECKABLE_TYPES orb bind isinstance];
    try (destruct (isinstance_class val _) eqn:Hi;
         [intros H; inversion H; subst; split; [exact Hi|reflexivity]|]).
  all: cbv beta iota.
  all: change (contains (VClass ?c) CHECKABLE_TYPES) with false.
  all: cbn [bind negb hashable lookup TYPE_CONVERSION_FUNCTIONS value_eqb
            pyclass_eqb]; try discriminate.
  all: intros H; split;
    [exact (Hfun _ H)|intros [E|[E|E]]; discriminate].
Qed.
End Conversions.

Lemma convert_class_result_witness :
  isinstance_class (VStr "42") str = true
  /\ (str = dict \/ str = list_ \/ str = tuple -> VStr "42" = VInt 42).
Proof.
  apply (convert_class_result (fun _ => Ok (VStr "42")) unused_builtin
           unused_builtin 0 (VInt 42) (VStr "42") str). reflexivity.
Defined.

(** ** The name/version coercion, continued *)

Lemma split_length (c : ascii) (s : string) :
  List.length (split c s) = S (count_char c s).
Proof.
  induction s as [|c' r IH]; cbn [split count_char]; [reflexivity|].
  destruct (Ascii.eqb c' c); cbn [List.length].
  - rewrite IH. reflexivity.
  - destruct (split c r) as [|h t]; [discriminate|].
    cbn [List.length] in *. exact IH.
Qed.

Lemma join_cons (sep x y : string) (l : list string) :
  join sep (x :: y :: l) = (x ++ sep ++ join sep (y :: l))%string.
Proof. reflexivity. Qed.

Lemma join_push (sep : string) (c : ascii) (h : string) (t : list string) :
  join sep (String c h :: t) = String c (join sep (h :: t)).
Proof. destruct t; reflexivity. Qed.

Lemma split_join (c : ascii) (s : string) :
  join (String c EmptyString) (split c s) = s.
Proof.
  induction s as [|c' r IH]; cbn [split]; [reflexivity|].
  pose proof (split_length c r) as Hl.
  destruct (split c r) as [|h t]; [discriminate|].
  destruct (Ascii.eqb_spec c' c) as [->|_].
  - rewrite join_cons, IH. reflexivity.
  - rewrite join_push, IH. reflexivity.
Qed.

(** X6: a string is coerced to a name/version dict exactly when it holds
    one comma: the two sides of the comma, trimmed, become name and
    version; with no comma or several the coercion raises its list-length
    error. *)
Theorem to_name_version_dict_one_comma (s : string) :
  (count_char "," s = 1 ->
   exists a b,
     s = (a ++ "," ++ b)%string
     /\ to_name_version_dict (VStr s)
        = Ok (VDict [("name", VStr (strip a)); ("version", VStr (strip b))]))
  /\ (count_char "," s <> 1 ->
      to_name_version_dict (VStr s) = Raise NameVersionListLength).
Proof.
  pose proof (split_length "," s) as Hl.
  pose proof (split_join "," s) as Hj.
  split; intros Hc.
  - rewrite Hc in Hl.
    destruct (split "," s) as [|a [|b [|? ?]]] eqn:Hs; try discriminate.
    exists a, b. split; [symmetry; exact Hj|].
    cbn [to_name_version_dict]. rewrite Hs. reflexivity.
  - cbn [to_name_version_dict]. rewrite length_map, Hl.
    destruct (Nat.eqb_spec (S (count_char "," s)) 2) as [E|_];
      [|reflexivity].
    exfalso. apply Hc. lia.
Qed.

Lemma to_name_version_dict_one_comma_witness :
  exists a b,
    "intel, 2015a" = (a ++ "," ++ b)%string
    /\ to_name_version_dict (VStr "intel, 2015a")
       = Ok (VDict [("name", VStr (strip a)); ("version", VStr (strip b))]).
Proof.
  apply (proj1 (to_name_version_dict_one_comma "intel, 2015a")).
  reflexivity.
Defined.

Lemma to_name_version_dict_shape (v r : value) :
  to_name_version_dict v = Ok r ->
  exists t, r = VDict t /\ Permutation (keys t) ["name"; "version"].
Proof.
  unfold to_name_version_dict.
  assert (Hl : forall l,
    (if Nat.eqb (List.length l) 2 then
       s0 <- getitem (VList l) 0 ;; name <- strip_method s0 ;;
       s1 <- getitem (VList l) 1 ;; version <- strip_method s1 ;;
       Ok (VDict [("name", name); ("version", version)])
     else Raise NameVersionListLength) = Ok r ->
    exists t, r = VDict t /\ Permutation (keys t) ["name"; "version"]).
  { intros l. destruct (Nat.eqb _ 2); [|discriminate].
    destruct (getitem (VList l) 0) as [s0|]; [|discriminate]. cbn [bind].
    destruct (strip_method s0); [|discriminate]. cbn [bind].
    destruct (getitem (VList l) 1) as [s1|]; [|discriminate]. cbn [bind].
    destruct (strip_method s1); [|discriminate]. cbn [bind].
    intros H. inversion H. eexists. split; reflexivity. }
  destruct v; try discriminate.
  - apply Hl.
  - apply Hl.
  - destruct (str_list_eqb _ _) eqn:E; [|discriminate].
    intros H. inversion H. subst. eexists. split; [reflexivity|].
    apply sorted_keys_name_version, E.
Qed.

Lemma to_name_version_dict_fixed (t : pydict) :
  Permutation (keys t) ["name"; "version"] ->
  to_name_version_dict (VDict t) = Ok (VDict t).
Proof.
  intros Hp. cbn [to_name_version_dict].
  apply sorted_keys_name_version in Hp. rewrite Hp. reflexivity.
Qed.

(** X7: the name/version coercion is idempotent: what it returns, it
    returns unchanged when applied again. *)
Theorem to_name_version_dict_idempotent (v r : value) :
  to_name_version_dict v = Ok r -> to_name_version_dict r = Ok r.
Proof.
  intros H. destruct (to_name_version_dict_shape v r H) as (t & -> & Hp).
  apply to_name_version_dict_fixed, Hp.
Qed.

Lemma to_name_version_dict_idempotent_witness :
  to_name_version_dict
    (VDict [("name", VStr "GCC"); ("version", VStr "4.8.2")])
  = Ok (VDict [("name", VStr "GCC"); ("version", VStr "4.8.2")]).
Proof.
  apply (to_name_version_dict_idempotent (VStr "GCC, 4.8.2")).
  reflexivity.
Defined.

(** ** Dicts under assignment *)

Lemma dict_find_set_same k v (d : pydict) :
  dict_find k (dict_set k v d) = Some v.
Proof.
  induction d as [|[k' v'] r IH]; cbn [dict_set dict_find].
  - rewrite String.eqb_refl. reflexivity.
  - destruct (String.eqb k k') eqn:E; cbn [dict_find].
    + rewrite String.eqb_refl. reflexivity.
    + rewrite E. exact IH.
Qed.

Lemma dict_find_set_other k k' v (d : pydict) :
  k <> k' -> dict_find k (dict_set k' v d) = dict_find k d.
Proof.
  intros Hne. induction d as [|[k0 v0] r IH]; cbn [dict_set dict_find].
  - destruct (String.eqb_spec k k'); [contradiction|reflexivity].
  - destruct (String.eqb_spec k' k0) as [->|Hne0]; cbn [dict_find].
    + destruct (String.eqb_spec k k0); [contradiction|reflexivity].
    + destruct (String.eqb k k0); [reflexivity|exact IH].
Qed.

Lemma dict_has_set k k' v (d : pydict) :
  dict_has k (dict_set k' v d) = String.eqb k k' || dict_has k d.
Proof.
  unfold dict_has. destruct (String.eqb_spec k k') as [->|Hne].
  - rewrite dict_find_set_same. reflexivity.
  - rewrite dict_find_set_other by exact Hne. reflexivity.
Qed.

Lemma keys_dict_set k v (d : pydict) x :
  In x (keys (dict_set k v d)) <-> x = k \/ In x (keys d).
Proof.
  unfold keys. induction d as [|[k' v'] r IH]; cbn [dict_set map fst In].
  - intuition.
  - destruct (String.eqb_spec k k') as [->|Hne]; cbn [map fst In].
    + intuition.
    + rewrite IH. intuition.
Qed.

Lemma dict_set_wf k v (d : pydict) : dict_wf d -> dict_wf (dict_set k v d).
Proof.
  unfold dict_wf, keys.
  induction d as [|[k' v'] r IH]; cbn [dict_set map fst]; intros Hnd.
  - repeat constructor. intros [].
  - inversion Hnd as [|? ? Hnotin Hnd']; subst.
    destruct (String.eqb_spec k k') as [->|Hne]; cbn [map fst].
    + constructor; assumption.
    + constructor; [|apply IH, Hnd'].
      intros Hin. apply (keys_dict_set k v r k') in Hin.
      destruct Hin as [->|Hin]; [apply Hne; reflexivity|contradiction].
Qed.

Lemma dict_set_new k v (d : pydict) :
  ~ In k (keys d) -> dict_set k v d = d ++ [(k, v)].
Proof.
  unfold keys. induction d as [|[k' v'] r IH]; cbn [dict_set map fst In app];
    intros Hnotin; [reflexivity|].
  destruct (String.eqb_spec k k') as [->|Hne].
  - exfalso. apply Hnotin. left; reflexivity.
  - rewrite IH; [reflexivity|]. intros Hin. apply Hnotin. right. exact Hin.
Qed.

Lemma keys_among_spec (ks : list string) (d : pydict) :
  keys_among ks d = true <-> forall k, In k (keys d) -> In k ks.
Proof.
  unfold keys_among. rewrite forallb_forall. split; intros H k Hin.
  - specialize (H k Hin). apply existsb_exists in H as (x & Hx & E).
    apply String.eqb_eq in E. subst. exact Hx.
  - apply existsb_exists. exists k. split; [apply H, Hin|].
    apply String.eqb_refl.
Qed.

Lemma dict_has_In k (d : pydict) : dict_has k d = true <-> In k (keys d).
Proof.
  rewrite <- existsb_keys_dict_has, existsb_exists. split.
  - intros (x & Hx & E). apply String.eqb_eq in E. subst. exact Hx.
  - intros Hin. exists k. split; [exact Hin|apply String.eqb_refl].
Qed.

(** ** The dependency coercion on dicts *)

Lemma both_found_set k v (d : pydict) :
  both_found d = true -> both_found (dict_set k v d) = true.
Proof.
  unfold both_found. rewrite !dict_has_set.
  intros H. apply andb_true_iff in H as [-> ->].
  rewrite !orb_true_r. reflexivity.
Qed.

Lemma keys_among_set k v (d : pydict) :
  In k DEPENDENCY_KEYS -> keys_among DEPENDENCY_KEYS d = true ->
  keys_among DEPENDENCY_KEYS (dict_set k v d) = true.
Proof.
  rewrite !keys_among_spec. intros Hk H x Hin.
  apply keys_dict_set in Hin as [->|Hin]; auto.
Qed.

Lemma found_update (found : bool) (old new : pydict) :
  found = both_found old ->
  (both_found old = true -> both_found new = true) ->
  (if dict_has "name" new && dict_has "version" new then true else found)
  = both_found new.
Proof.
  intros -> Hmono. fold (both_found new).
  destruct (both_found new) eqn:E; [reflexivity|].
  destruct (both_found old); [|reflexivity].
  symmetry. apply Hmono. reflexivity.
Qed.

Lemma to_dependency_step_invariant st item st' :
  loop_invariant st -> to_dependency_step st item = Ok st' ->
  loop_invariant st'.
Proof.
  destruct st as [depspec found], item as [key val].
  intros (Hwf & Hkeys & Hfound & Htc). cbn [fst snd] in *.
  unfold to_dependency_step.
  destruct (existsb (String.eqb key) ["name"; "version"; "versionsuffix"])
    eqn:Hknown.
  - cbn [bind]. intros H. inversion H; subst st'; clear H.
    assert (Hin : In key DEPENDENCY_KEYS).
    { apply existsb_exists in Hknown as (x & Hx & E).
      apply String.eqb_eq in E. subst x. unfold DEPENDENCY_KEYS.
      cbn [In] in *. intuition. }
    assert (Hnt : "toolchain" <> key).
    { intros <-. discriminate Hknown. }
    repeat split; cbn [fst snd].
    + apply dict_set_wf, Hwf.
    + apply keys_among_set; assumption.
    + apply (found_update found depspec); [exact Hfound|].
      apply both_found_set.
    + intros tc. rewrite dict_find_set_other by exact Hnt. apply Htc.
  - destruct (String.eqb_spec key "toolchain") as [->|Hnt].
    + destruct (to_name_version_dict val) as [tc|] eqn:Hc; [|discriminate].
      cbn [bind]. intros H. inversion H; subst st'; clear H.
      repeat split; cbn [fst snd].
      * apply dict_set_wf, Hwf.
      * apply keys_among_set; [|exact Hkeys].
        unfold DEPENDENCY_KEYS. cbn [In]. intuition.
      * apply (found_update found depspec); [exact Hfound|].
        apply both_found_set.
      * intros tc'. rewrite dict_find_set_same. intros E. inversion E; subst.
        apply (to_name_version_dict_shape val), Hc.
    + destruct found; cbn [negb]; [discriminate|].
      cbn [bind]. intros H. inversion H; subst st'; clear H.
      repeat split; cbn [fst snd].
      * apply dict_set_wf, dict_set_wf, Hwf.
      * apply keys_among_set; [unfold DEPENDENCY_KEYS; cbn [In]; intuition|].
        apply keys_among_set; [unfold DEPENDENCY_KEYS; cbn [In]; intuition|].
        exact Hkeys.
      * unfold both_found. rewrite !dict_has_set. reflexivity.
      * intros tc. rewrite !dict_find_set_other by discriminate. apply Htc.
Qed.

Lemma to_dependency_loop_invariant items :
  forall st st', loop_invariant st ->
    to_dependency_loop st items = Ok st' -> loop_invariant st'.
Proof.
  induction items as [|item rest IH]; intros st st' Hinv;
    cbn [to_dependency_loop].
  - intros H. inversion H; subst. exact Hinv.
  - destruct (to_dependency_step st item) as [st1|] eqn:Hs; [|discriminate].
    cbn [bind]. apply IH. eapply to_dependency_step_invariant; eassumption.
Qed.

Lemma loop_invariant_start : loop_invariant ([], false).
Proof.
  repeat split; cbn [fst snd]; try reflexivity.
  - constructor.
  - intros tc H. discriminate.
Qed.

Lemma to_dependency_dict_canonical (d : pydict) (res : value) :
  to_dependency (VDict d) = Ok res ->
  exists r, res = VDict r /\ canonical_dependency r.
Proof.
  cbn [to_dependency].
  destruct (to_dependency_loop ([], false) d) as [[depspec found]|] eqn:Hl;
    [|discriminate].
  cbn [bind snd fst]. destruct found; cbn [negb]; [|discriminate].
  intros H. inversion H; subst res. exists depspec. split; [reflexivity|].
  destruct (to_dependency_loop_invariant d _ _ loop_invariant_start Hl)
    as (Hwf & Hkeys & Hfound & Htc).
  cbn [fst snd] in *. repeat split; try assumption.
  unfold has_keys. cbn [forallb]. rewrite andb_true_r.
  symmetry. exact Hfound.
Qed.

Lemma canonical_is_dependency_dict (r : pydict) :
  canonical_dependency r -> is_dependency_dict (VDict r) = true.
Proof.
  intros (_ & Hkeys & Hhas & _). cbn [is_dependency_dict].
  rewrite Hkeys, Hhas. reflexivity.
Qed.

Lemma to_dependency_step_known (p : pydict) (found : bool) k v :
  In k DEPENDENCY_KEYS -> ~ In k (keys p) ->
  (k = "toolchain" ->
   exists t, v = VDict t /\ Permutation (keys t) ["name"; "version"]) ->
  found = both_found p ->
  to_dependency_step (p, found) (k, v)
  = Ok (p ++ [(k, v)], both_found (p ++ [(k, v)])).
Proof.
  intros Hk Hnew Htc Hfound. unfold to_dependency_step.
  assert (Hupd :
    (if dict_has "name" (dict_set k v p) && dict_has "version" (dict_set k v p)
     then true else found) = both_found (dict_set k v p)).
  { apply (found_update found p); [exact Hfound|apply both_found_set]. }
  unfold DEPENDENCY_KEYS in Hk. cbn [In] in Hk.
  destruct Hk as [<-|[<-|[<-|[<-|[]]]]];
    cbn [existsb String.eqb Ascii.eqb Bool.eqb orb andb bind].
  1-3: rewrite Hupd, dict_set_new by exact Hnew; reflexivity.
  destruct (Htc eq_refl) as (t & -> & Hp).
  rewrite (to_name_version_dict_fixed t Hp). cbn [bind].
  rewrite Hupd, dict_set_new by exact Hnew. reflexivity.
Qed.

Lemma to_dependency_loop_known (rest : pydict) :
  forall (p : pydict) (found : bool),
    NoDup (keys (p ++ rest)) ->
    (forall k v, In (k, v) rest ->
       In k DEPENDENCY_KEYS
       /\ (k = "toolchain" ->
           exists t, v = VDict t /\ Permutation (keys t) ["name"; "version"])) ->
    found = both_found p ->
    to_dependency_loop (p, found) rest
    = Ok (p ++ rest, both_found (p ++ rest)).
Proof.
  induction rest as [|[k v] rest IH]; intros p found Hnd Hitems Hfound;
    cbn [to_dependency_loop].
  - rewrite app_nil_r. rewrite Hfound. reflexivity.
  - destruct (Hitems k v (or_introl eq_refl)) as [Hk Htc].
    assert (Hnew : ~ In k (keys p)).
    { unfold keys in *. rewrite map_app in Hnd. cbn [map fst] in Hnd.
      apply NoDup_remove_2 in Hnd. intros Hin. apply Hnd.
      apply in_or_app. left. exact Hin. }
    rewrite (to_dependency_step_known p found k v Hk Hnew Htc Hfound).
    cbn [bind].
    replace (p ++ (k, v) :: rest) with ((p ++ [(k, v)]) ++ rest)
      by (rewrite <- app_assoc; reflexivity).
    apply IH.
    + rewrite <- app_assoc. exact Hnd.
    + intros k' v' Hin. apply Hitems. right. exact Hin.
    + reflexivity.
Qed.

Lemma to_dependency_canonical_fixed (r : pydict) :
  canonical_dependency r -> to_dependency (VDict r) = Ok (VDict r).
Proof.
  intros (Hwf & Hkeys & Hhas & Htc).
  assert (HL : to_dependency_loop ([], false) r = Ok (r, both_found r)).
  { apply (to_dependency_loop_known r [] false).
    - exact Hwf.
    - intros k v Hin. split.
      + apply (proj1 (keys_among_spec _ _) Hkeys).
        change k with (fst (k, v)). apply in_map, Hin.
      + intros ->. apply Htc. apply In_dict_find; assumption.
    - reflexivity. }
  cbn [to_dependency]. rewrite HL.
  cbn [bind app fst snd]. unfold has_keys in Hhas. cbn [forallb] in Hhas.
  rewrite andb_true_r in Hhas. unfold both_found. rewrite Hhas.
  reflexivity.
Qed.

(** X8: whatever dict [to_dependency] is given, what it returns is a
    dependency specification in canonical form: a dict with distinct keys
    among name, version, versionsuffix and toolchain, with name and
    version, whose toolchain, if any, has exactly the keys name and
    version; so the matcher accepts it as a dependency dict. *)
Theorem to_dependency_dict_result (d : pydict) (res : value) (depth : nat) :
  to_dependency (VDict d) = Ok res ->
  (exists r, res = VDict r /\ canonical_dependency r)
  /\ matches (S depth) res DEPENDENCY_DICT = Ok true.
Proof.
  intros H. destruct (to_dependency_dict_canonical d res H) as (r & -> & Hc).
  split; [eauto|].
  rewrite matches_DEPENDENCY_DICT, (canonical_is_dependency_dict r Hc).
  reflexivity.
Qed.

Lemma to_dependency_dict_result_witness :
  matches 1
    (VDict [("name", VStr "foo"); ("version", VStr "1.2.3");
            ("toolchain",
             VDict [("name", VStr "GCC"); ("version", VStr "4.8.2")])])
    DEPENDENCY_DICT = Ok true.
Proof.
  apply (proj2 (to_dependency_dict_result
                  [("foo", VStr "1.2.3"); ("toolchain", VStr "GCC, 4.8.2")]
                  _ 0 eq_refl)).
Defined.

(** X9: on dicts the dependency coercion is idempotent: a result is
    returned unchanged when coerced again. *)
Theorem to_dependency_dict_idempotent (d : pydict) (res : value) :
  to_dependency (VDict d) = Ok res -> to_dependency res = Ok res.
Proof.
  intros H. destruct (to_dependency_dict_canonical d res H) as (r & -> & Hc).
  apply to_dependency_canonical_fixed, Hc.
Qed.

Lemma to_dependency_dict_idempotent_witness :
  let res :=
    VDict [("name", VStr "foo"); ("version", VStr "1.2.3");
           ("toolchain",
            VDict [("name", VStr "GCC"); ("version", VStr "4.8.2")])] in
  to_dependency res = Ok res.
Proof.
  intros res.
  apply (to_dependency_dict_idempotent
           [("foo", VStr "1.2.3"); ("toolchain", VStr "GCC, 4.8.2")]).
  reflexivity.
Defined.

Lemma free_key_step (p : pydict) (found : bool) k v :
  free_key k = true ->
  to_dependency_step (p, found) (k, v)
  = if found then Raise DependencyUnexpectedPair
    else Ok (dict_set "version" v (dict_set "name" (VStr k) p), true).
Proof.
  unfold free_key, DEPENDENCY_KEYS. cbn [existsb]. intros H.
  apply negb_true_iff in H.
  apply orb_false_iff in H as [H1 H]. apply orb_false_iff in H as [H2 H].
  apply orb_false_iff in H as [H3 H]. apply orb_false_iff in H as [H4 _].
  unfold to_dependency_step. cbn [existsb]. rewrite H1, H2, H3, H4.
  cbn [orb]. destruct found; cbn [negb bind]; [reflexivity|].
  rewrite !dict_has_set. cbn [String.eqb Ascii.eqb Bool.eqb orb andb].
  reflexivity.
Qed.

Lemma found_stays (p p' : pydict) (found found' : bool) item :
  to_dependency_step (p, found) item = Ok (p', found') ->
  found = true -> found' = true.
Proof.
  destruct item as [k v]. unfold to_dependency_step.
  destruct (_ : result pydict) as [depspec|]; [|discriminate].
  cbn [bind]. intros H Hf. subst found. inversion H as [[H1 H2]].
  clear. destruct (dict_has "name" p' && dict_has "version" p');
    reflexivity.
Qed.

Lemma dict_has_cons k k' v (d : pydict) :
  dict_has k ((k', v) :: d) = String.eqb k k' || dict_has k d.
Proof.
  unfold dict_has. cbn [dict_find]. destruct (String.eqb k k'); reflexivity.
Qed.

Lemma free_key_not_toolchain k : free_key k = true -> String.eqb "toolchain" k = false.
Proof.
  destruct (String.eqb_spec "toolchain" k) as [<-|]; [discriminate|reflexivity].
Qed.

Lemma to_dependency_loop_free (rest : pydict) :
  forall (p : pydict) (found : bool),
    (if found then 1 else 2) <= List.length (filter free_key (keys rest)) ->
    exists err,
      to_dependency_loop (p, found) rest = Raise err
      /\ (dict_has "toolchain" rest = false ->
          err = DependencyUnexpectedPair).
Proof.
  induction rest as [|[k v] rest IH]; intros p found Hcount.
  - cbn in Hcount. destruct found; lia.
  - cbn [to_dependency_loop keys map fst filter] in *.
    fold (keys rest) in Hcount. rewrite dict_has_cons.
    destruct (free_key k) eqn:Hfree.
    + rewrite (free_key_step p found k v Hfree).
      rewrite (free_key_not_toolchain k Hfree). cbn [orb].
      destruct found; cbn [bind]; [eauto|].
      apply IH. cbn [List.length] in Hcount. lia.
    + destruct (to_dependency_step (p, found) (k, v)) as [[p' found']|err]
        eqn:Hs; cbn [bind].
      * destruct (IH p' found') as (err & Hr & Htc).
        { destruct found eqn:Hf; [|destruct found'; lia].
          rewrite (found_stays p p' true found' (k, v) Hs eq_refl).
          exact Hcount. }
        exists err. split; [exact Hr|].
        intros H. apply orb_false_iff in H as [_ H]. apply Htc, H.
      * exists err. split; [reflexivity|].
        intros H. apply orb_false_iff in H as [Hnt _]. exfalso.
        revert Hs. unfold to_dependency_step.
        unfold free_key, DEPENDENCY_KEYS in Hfree. cbn [existsb] in *.
        apply negb_false_iff in Hfree.
        rewrite (String.eqb_sym k "toolchain"), Hnt in *.
        rewrite !orb_false_r in Hfree. cbn [orb] in *.
        rewrite !orb_false_r. rewrite Hfree. cbn [bind]. discriminate.
Qed.

(** X10: a dict with two keys outside name, version, versionsuffix and
    toolchain is refused by [to_dependency]: at most one key can stand for
    the name.  Without a toolchain entry the error is the one for an
    unexpected pair. *)
Theorem to_dependency_two_free_keys (d : pydict) :
  2 <= List.length (filter free_key (keys d)) ->
  (exists err, to_dependency (VDict d) = Raise err)
  /\ (dict_has "toolchain" d = false ->
      to_dependency (VDict d) = Raise DependencyUnexpectedPair).
Proof.
  intros Hcount.
  destruct (to_dependency_loop_free d [] false Hcount) as (err & Hr & Htc).
  cbn [to_dependency]. unfold pydict in *. rewrite Hr. cbn [bind]. split; [eauto|].
  intros H. rewrite (Htc H). reflexivity.
Qed.

Lemma to_dependency_two_free_keys_witness :
  to_dependency (VDict [("foo", VStr "1.2.3"); ("bar", VStr "4.5")])
  = Raise DependencyUnexpectedPair.
Proof.
  apply (proj2 (to_dependency_two_free_keys
                  [("foo", VStr "1.2.3"); ("bar", VStr "4.5")]
                  (le_n 2))).
  reflexivity.
Defined.

Lemma known_key_step (p : pydict) (found : bool) k v p' found' :
  In k DEPENDENCY_KEYS ->
  to_dependency_step (p, found) (k, v) = Ok (p', found') ->
  forall x, In x (keys p') -> x = k \/ In x (keys p).
Proof.
  intros Hk. unfold to_dependency_step, DEPENDENCY_KEYS in *. cbn [In] in Hk.
  destruct Hk as [<-|[<-|[<-|[<-|[]]]]];
    cbn [existsb String.eqb Ascii.eqb Bool.eqb orb andb bind].
  1-3: intros H; inversion H; subst; intros x; apply keys_dict_set.
  destruct (to_name_version_dict v) as [tc|]; [|discriminate].
  cbn [bind]. intros H; inversion H; subst; intros x; apply keys_dict_set.
Qed.

Lemma to_dependency_loop_known_keys (rest : pydict) :
  forall (p : pydict) (found : bool) st',
    keys_among DEPENDENCY_KEYS rest = true ->
    to_dependency_loop (p, found) rest = Ok st' ->
    forall x, In x (keys (fst st')) -> In x (keys p) \/ In x (keys rest).
Proof.
  induction rest as [|[k v] rest IH]; intros p found st' Hkeys;
    cbn [to_dependency_loop].
  - intros H. inversion H; subst. cbn [fst]. auto.
  - destruct (to_dependency_step (p, found) (k, v)) as [[p' found']|] eqn:Hs;
      [|discriminate].
    cbn [bind]. intros Hl x Hin.
    assert (Hk : In k DEPENDENCY_KEYS).
    { apply (proj1 (keys_among_spec _ _) Hkeys). left. reflexivity. }
    assert (Hrest : keys_among DEPENDENCY_KEYS rest = true).
    { apply keys_among_spec. intros y Hy.
      apply (proj1 (keys_among_spec _ _) Hkeys). right. exact Hy. }
    destruct (IH p' found' st' Hrest Hl x Hin) as [Hp'|Hr].
    + destruct (known_key_step p found k v p' found' Hk Hs x Hp')
        as [->|Hp]; [right; left; reflexivity|left; exact Hp].
    + right. right. exact Hr.
Qed.

Lemma to_dependency_loop_plain (rest : pydict) :
  forall (p : pydict) (found : bool),
    keys_among ["name"; "version"; "versionsuffix"] rest = true ->
    exists st', to_dependency_loop (p, found) rest = Ok st'.
Proof.
  induction rest as [|[k v] rest IH]; intros p found Hkeys;
    cbn [to_dependency_loop]; [eauto|].
  unfold keys_among in Hkeys. cbn [keys map fst forallb] in Hkeys.
  apply andb_true_iff in Hkeys as [Hk Hrest].
  unfold to_dependency_step. rewrite Hk. cbn [bind]. apply IH, Hrest.
Qed.

(** X11: a dict whose keys are all among name, version, versionsuffix and
    toolchain but which lacks name or version is refused by
    [to_dependency]; without a toolchain entry the error is the one for a
    dependency without name and version. *)
Theorem to_dependency_without_name_version (d : pydict) :
  keys_among DEPENDENCY_KEYS d = true ->
  has_keys ["name"; "version"] d = false ->
  (exists err, to_dependency (VDict d) = Raise err)
  /\ (dict_has "toolchain" d = false ->
      to_dependency (VDict d) = Raise DependencyNoNameVersion).
Proof.
  intros Hkeys Hhas.
  assert (Hstop : forall st',
    to_dependency_loop ([], false) d = Ok st' ->
    to_dependency (VDict d) = Raise DependencyNoNameVersion).
  { intros st' Hl. cbn [to_dependency]. rewrite Hl. cbn [bind].
    destruct (to_dependency_loop_invariant d _ _ loop_invariant_start Hl)
      as (_ & _ & Hfound & _).
    destruct (snd st') eqn:Hf; [|reflexivity].
    exfalso. symmetry in Hfound. unfold both_found in Hfound.
    apply andb_true_iff in Hfound as [Hn Hv].
    assert (Hin : forall x, dict_has x (fst st') = true -> dict_has x d = true).
    { intros x Hx. apply dict_has_In in Hx.
      destruct (to_dependency_loop_known_keys d [] false st' Hkeys Hl x Hx)
        as [[]|Hd].
      apply dict_has_In, Hd. }
    unfold has_keys in Hhas. cbn [forallb] in Hhas.
    rewrite (Hin _ Hn), (Hin _ Hv) in Hhas. discriminate. }
  split.
  - destruct (to_dependency_loop ([], false) d) as [st'|err] eqn:Hl.
    + eexists. apply (Hstop st'). reflexivity.
    + exists err. cbn [to_dependency]. rewrite Hl. reflexivity.
  - intros Htc.
    destruct (to_dependency_loop_plain d [] false) as [st' Hl];
      [|apply (Hstop st'), Hl].
    apply keys_among_spec. intros k Hin.
    pose proof (proj1 (keys_among_spec _ _) Hkeys k Hin) as Hk.
    unfold DEPENDENCY_KEYS in Hk. cbn [In] in *.
    destruct Hk as [<-|[<-|[<-|[<-|[]]]]]; auto.
    apply dict_has_In in Hin. congruence.
Qed.

Lemma to_dependency_without_name_version_witness :
  to_dependency (VDict [("name", VStr "foo"); ("versionsuffix", VStr "-x")])
  = Raise DependencyNoNameVersion.
Proof.
  apply (proj2 (to_dependency_without_name_version
                  [("name", VStr "foo"); ("versionsuffix", VStr "-x")]
                  eq_refl eq_refl)).
  reflexivity.
Defined.

(** ** The dependency coercion on sequences and on lists of dependencies *)

(** X12: in the old format a list or tuple of fewer than two fields is
    not refused: it is coerced to the empty dict, which is no dependency
    dict; with two fields or more the result is one. *)
Theorem to_dependency_sequence_result (l : list value) (depth : nat) :
  (List.length l < 2 ->
   to_dependency (VList l) = Ok (VDict [])
   /\ to_dependency (VTuple l) = Ok (VDict [])
   /\ matches (S depth) (VDict []) DEPENDENCY_DICT = Ok false)
  /\ (2 <= List.length l ->
      exists r,
        to_dependency (VList l) = Ok r /\ to_dependency (VTuple l) = Ok r
        /\ matches (S depth) r DEPENDENCY_DICT = Ok true).
Proof.
  split; intros Hlen.
  - destruct l as [|d0 [|d1 rest]]; cbn [List.length] in Hlen; try lia;
      repeat split; reflexivity.
  - destruct l as [|d0 [|d1 rest]]; cbn [List.length] in Hlen; try lia.
    destruct rest as [|d2 [|d3 rest]]; eexists;
      (split; [reflexivity|]); (split; [reflexivity|]);
      rewrite matches_DEPENDENCY_DICT; reflexivity.
Qed.

Lemma to_dependency_sequence_result_witness :
  to_dependency (VTuple [VStr "foo"]) = Ok (VDict [])
  /\ exists r,
       to_dependency (VList [VStr "foo"; VStr "1.2.3"]) = Ok r
       /\ to_dependency (VTuple [VStr "foo"; VStr "1.2.3"]) = Ok r
       /\ matches 1 r DEPENDENCY_DICT = Ok true.
Proof.
  split.
  - apply (proj1 (to_dependency_sequence_result [VStr "foo"] 0)).
    cbn. lia.
  - apply (proj2 (to_dependency_sequence_result
                    [VStr "foo"; VStr "1.2.3"] 0)).
    cbn. lia.
Defined.

Lemma comprehension_Forall2 {A B : Type} (f : A -> result B) (l : list A)
    (rs : list B) :
  comprehension f l = Ok rs <-> Forall2 (fun x y => f x = Ok y) l rs.
Proof.
  revert rs. induction l as [|x r IH]; intros rs; cbn [comprehension].
  - split.
    + intros H. inversion H. constructor.
    + intros H. inversion H. reflexivity.
  - split.
    + destruct (f x) as [y|] eqn:Hx; [|discriminate]. cbn [bind].
      destruct (comprehension f r) as [ys|] eqn:Hr; [|discriminate].
      cbn [bind]. intros H. inversion H; subst.
      constructor; [exact Hx|]. apply IH. reflexivity.
    + intros H. inversion H as [|? y ? ys Hx Hr]; subst.
      rewrite Hx. cbn [bind]. apply IH in Hr. rewrite Hr. reflexivity.
Qed.

Lemma comprehension_first_failure {A B : Type} (f : A -> result B)
    (pre post : list A) (x : A) (err : exn) :
  (forall y, In y pre -> exists b, f y = Ok b) -> f x = Raise err ->
  comprehension f (pre ++ x :: post) = Raise err.
Proof.
  intros Hpre Hx. induction pre as [|y pre IH]; cbn [app comprehension].
  - rewrite Hx. reflexivity.
  - destruct (Hpre y (or_introl eq_refl)) as [b Hy]. rewrite Hy.
    cbn [bind]. rewrite IH; [reflexivity|].
    intros z Hz. apply Hpre. right. exact Hz.
Qed.

(** X13: [to_dependencies] coerces a list element by element, in order:
    it succeeds exactly when every element is coerced by [to_dependency],
    the result being the list of the coerced elements, of the same length;
    otherwise it raises what the first failing element raises. *)
Theorem to_dependencies_elementwise (l : list value) :
  (forall res,
     to_dependencies (VList l) = Ok res <->
     exists rs, res = VList rs
                /\ Forall2 (fun dep r => to_dependency dep = Ok r) l rs)
  /\ (forall rs, to_dependencies (VList l) = Ok (VList rs) ->
        List.length rs = List.length l)
  /\ (forall pre dep post err,
        l = pre ++ dep :: post ->
        (forall d, In d pre -> exists r, to_dependency d = Ok r) ->
        to_dependency dep = Raise err ->
        to_dependencies (VList l) = Raise err).
Proof.
  assert (Hiff : forall res,
     to_dependencies (VList l) = Ok res <->
     exists rs, res = VList rs
                /\ Forall2 (fun dep r => to_dependency dep = Ok r) l rs).
  { intros res. unfold to_dependencies. cbn [iter bind]. split.
    - destruct (comprehension to_dependency l) as [rs|] eqn:Hc;
        [|discriminate].
      cbn [bind]. intros H. inversion H; subst. exists rs.
      split; [reflexivity|]. apply comprehension_Forall2, Hc.
    - intros (rs & -> & Hall). apply comprehension_Forall2 in Hall.
      rewrite Hall. reflexivity. }
  split; [exact Hiff|]. split.
  - intros rs H. apply Hiff in H as (rs' & E & Hall). inversion E; subst.
    symmetry. eapply Forall2_length, Hall.
  - intros pre dep post err -> Hpre Hdep. unfold to_dependencies.
    cbn [iter bind].
    rewrite (comprehension_first_failure to_dependency pre post dep err
               Hpre Hdep).
    reflexivity.
Qed.

Lemma to_dependencies_elementwise_witness :
  to_dependencies (VList [VList [VStr "a"; VStr "1"]; VInt 3; VInt 4])
  = Raise DependencyUnsupported.
Proof.
  apply (proj2 (proj2 (to_dependencies_elementwise
           [VList [VStr "a"; VStr "1"]; VInt 3; VInt 4]))
           [VList [VStr "a"; VStr "1"]] (VInt 3) [VInt 4]
           DependencyUnsupported eq_refl).
  - intros d [<-|[]]. eexists. reflexivity.
  - reflexivity.
Defined.

(** ** Where the converter's result does match *)

Lemma to_name_version_dict_strings (v r : value) :
  (forall d, v <> VDict d) -> to_name_version_dict v = Ok r ->
  is_name_version_dict r = true.
Proof.
  intros Hnd. unfold to_name_version_dict.
  assert (Hl : forall l,
    (if Nat.eqb (List.length l) 2 then
       s0 <- getitem (VList l) 0 ;; name <- strip_method s0 ;;
       s1 <- getitem (VList l) 1 ;; version <- strip_method s1 ;;
       Ok (VDict [("name", name); ("version", version)])
     else Raise NameVersionListLength) = Ok r ->
    is_name_version_dict r = true).
  { intros l. destruct (Nat.eqb _ 2); [|discriminate].
    destruct (getitem (VList l) 0) as [s0|]; [|discriminate]. cbn [bind].
    destruct s0; try discriminate. cbn [strip_method bind].
    destruct (getitem (VList l) 1) as [s1|]; [|discriminate]. cbn [bind].
    destruct s1; try discriminate. cbn [strip_method bind].
    intros H. inversion H. reflexivity. }
  destruct v; try discriminate.
  - apply Hl.
  - apply Hl.
  - exfalso. eapply Hnd. reflexivity.
Qed.

Lemma to_dependency_matches (dep r : value) :
  match dep with
  | VList l | VTuple l => 2 <= List.length l
  | _ => True
  end ->
  to_dependency dep = Ok r -> is_dependency_dict r = true.
Proof.
  intros Hlen H. destruct dep; try discriminate.
  - destruct l as [|d0 [|d1 [|d2 [|d3 rest]]]];
      cbn [List.length] in Hlen; try lia; inversion H; reflexivity.
  - destruct l as [|d0 [|d1 [|d2 [|d3 rest]]]];
      cbn [List.length] in Hlen; try lia; inversion H; reflexivity.
  - destruct (to_dependency_dict_canonical d r H) as (r' & -> & Hc).
    apply canonical_is_dependency_dict, Hc.
Qed.

Section Sound.
Variables sb ib fb : value -> result value.

(** X14: the converter's result does match the target when a [str] or a
    list of two [str] is converted to a name/version dict, and when a list
    is converted to a dependency list none of whose old-format entries has
    fewer than two fields. *)
Theorem convert_result_matches (depth : nat) :
  (forall s res,
     convert sb ib fb (S (S depth)) (VStr s) NAME_VERSION_DICT = Ok res ->
     matches (S (S depth)) res NAME_VERSION_DICT = Ok true)
  /\ (forall a b res,
        convert sb ib fb (S (S depth)) (VList [VStr a; VStr b])
                NAME_VERSION_DICT = Ok res ->
        matches (S (S depth)) res NAME_VERSION_DICT = Ok true)
  /\ (forall l res,
        Forall (fun dep => match dep with
                           | VList x | VTuple x => 2 <= List.length x
                           | _ => True
                           end) l ->
        convert sb ib fb (S (S depth)) (VList l) DEPENDENCIES = Ok res ->
        matches (S (S depth)) res DEPENDENCIES = Ok true).
Proof.
  assert (Hnv : forall val res,
     (forall d, val <> VDict d) ->
     convert sb ib fb (S (S depth)) val NAME_VERSION_DICT = Ok res ->
     matches (S (S depth)) res NAME_VERSION_DICT = Ok true).
  { intros val res Hnd. rewrite convert_NAME_VERSION_DICT.
    rewrite matches_NAME_VERSION_DICT.
    destruct (is_name_version_dict val) eqn:Hm.
    + intros H. inversion H; subst. rewrite Hm. reflexivity.
    + destruct (to_name_version_dict val) as [r|] eqn:Hc; [|discriminate].
      cbn [wrap_failure]. intros H. inversion H; subst.
      rewrite (to_name_version_dict_strings val res Hnd Hc). reflexivity. }
  split; [|split].
  - intros s res. apply Hnv. discriminate.
  - intros a b res. apply Hnv. discriminate.
  - intros l res Hall. rewrite convert_DEPENDENCIES.
    rewrite matches_DEPENDENCIES.
    destruct (is_dependencies (VList l)) eqn:Hm.
    + intros H. inversion H; subst. rewrite Hm. reflexivity.
    + unfold to_dependencies. cbn [iter bind].
      destruct (comprehension to_dependency l) as [rs|] eqn:Hc;
        [|discriminate].
      cbn [bind wrap_failure]. intros H. inversion H; subst.
      cbn [is_dependencies]. f_equal.
      apply comprehension_Forall2 in Hc. clear Hm H.
      induction Hc as [|dep r l' rs' Hdep _ IH]; [reflexivity|].
      inversion Hall; subst. cbn [forallb].
      rewrite (to_dependency_matches dep r); auto.
Qed.
End Sound.

Lemma convert_result_matches_witness :
  matches 2 (VDict [("name", VStr "gcc"); ("version", VStr "4.8.2")])
          NAME_VERSION_DICT = Ok true
  /\ matches 2 (VList [VDict [("name", VStr "a"); ("version", VStr "1");
                              ("versionsuffix", VStr "-x")]])
             DEPENDENCIES = Ok true.
Proof.
  destruct (convert_result_matches unused_builtin unused_builtin
              unused_builtin 0) as (H1 & _ & H3).
  split.
  - apply (H1 "gcc, 4.8.2"). reflexivity.
  - apply (H3 [VTuple [VStr "a"; VStr "1"; VStr "-x"]]);
      [repeat constructor|reflexivity].
Defined.

(** ** Reading an encoded requirement description back *)

Lemma comprehension_dict_entry (items : pydict) :
  comprehension dict_entry
    (map (fun kv : string * value => VTuple [VStr (fst kv); snd kv]) items)
  = Ok items.
Proof.
  induction items as [|[k v] r IH]; cbn [map comprehension]; [reflexivity|].
  cbn [dict_entry iter bind fst snd]. rewrite IH. reflexivity.
Qed.

Lemma fold_dict_set (items : pydict) :
  forall acc : pydict,
    NoDup (keys (acc ++ items)) ->
    fold_left (fun (d : pydict) (kv : string * value) =>
                 dict_set (fst kv) (snd kv) d) items acc
    = acc ++ items.
Proof.
  induction items as [|[k v] r IH]; intros acc Hnd; cbn [fold_left fst snd].
  - rewrite app_nil_r. reflexivity.
  - rewrite dict_set_new.
    + rewrite IH; rewrite <- app_assoc; [reflexivity|exact Hnd].
    + unfold keys in *. rewrite map_app in Hnd. cbn [map fst] in Hnd.
      apply NoDup_remove_2 in Hnd. intros Hin. apply Hnd.
      apply in_or_app. left. exact Hin.
Qed.

Lemma dict_find_perm k (d1 d2 : pydict) :
  dict_wf d1 -> Permutation d1 d2 -> dict_find k d1 = dict_find k d2.
Proof.
  intros Hwf Hp.
  assert (Hwf2 : dict_wf d2).
  { unfold dict_wf, keys in *. eapply Permutation_NoDup; [|exact Hwf].
    apply Permutation_map, Hp. }
  destruct (dict_find k d1) as [v|] eqn:H1.
  - symmetry. apply In_dict_find; [exact Hwf2|].
    apply (Permutation_in _ Hp), dict_find_In, H1.
  - destruct (dict_find k d2) as [v|] eqn:H2; [|reflexivity].
    apply dict_find_In in H2.
    apply (Permutation_in _ (Permutation_sym Hp)) in H2.
    apply (In_dict_find _ _ _ Hwf) in H2. congruence.
Qed.

Lemma dict_find_hashable k (d : pydict) :
  dict_find k (map hashable_item d)
  = option_map tuple_if_list (dict_find k d).
Proof.
  induction d as [|[k' v] r IH]; cbn [map hashable_item dict_find];
    [reflexivity|].
  destruct (String.eqb k k'); [reflexivity|exact IH].
Qed.

(** X15: what [dict2tuple] encodes, [dict] reads back, as the matcher does
    with the requirements of a type: the decoded dict has the keys of the
    original and under each key the original value, a list having become
    the tuple of its elements. *)
Theorem dict2tuple_decode (d : pydict) :
  dict_wf d ->
  exists t d',
    dict2tuple (VDict d) = Ok t
    /\ dict_of t = Ok d'
    /\ dict_wf d'
    /\ (forall k, In k (keys d') <-> In k (keys d))
    /\ forall k, dict_find k d' = option_map tuple_if_list (dict_find k d).
Proof.
  intros Hwf. set (items := sorted fst (map hashable_item d)).
  assert (Hperm : Permutation items (map hashable_item d))
    by apply sorted_perm.
  assert (Hwfh : dict_wf (map hashable_item d)).
  { unfold dict_wf, keys. rewrite hashable_items_keys. exact Hwf. }
  assert (Hwfi : dict_wf items).
  { unfold dict_wf, keys in *. eapply Permutation_NoDup; [|exact Hwfh].
    apply Permutation_map, Permutation_sym, Hperm. }
  exists (VTuple (map (fun kv : string * value =>
                         VTuple [VStr (fst kv); snd kv]) items)), items.
  split; [apply dict2tuple_unfold|]. split; [|split; [exact Hwfi|split]].
  - cbn [dict_of iter bind]. rewrite comprehension_dict_entry. cbn [bind].
    rewrite fold_dict_set; [reflexivity|exact Hwfi].
  - intros k. rewrite <- (hashable_items_keys d). unfold keys.
    split; apply Permutation_in, Permutation_map;
      [exact Hperm|apply Permutation_sym, Hperm].
  - intros k. rewrite <- dict_find_hashable. symmetry.
    apply dict_find_perm; [exact Hwfh|apply Permutation_sym, Hperm].
Qed.

Lemma dict2tuple_decode_witness :
  exists t d',
    dict2tuple (VDict [("required_keys", VList [VStr "name"]);
                       ("opt_keys", VList [])]) = Ok t
    /\ dict_of t = Ok d'
    /\ dict_wf d'
    /\ (forall k, In k (keys d') <-> In k ["required_keys"; "opt_keys"])
    /\ forall k,
         dict_find k d'
         = option_map tuple_if_list
             (dict_find k [("required_keys", VList [VStr "name"]);
                           ("opt_keys", VList [])]).
Proof.
  apply (dict2tuple_decode [("required_keys", VList [VStr "name"]);
                            ("opt_keys", VList [])]).
  repeat constructor; cbn; intuition discriminate.
Defined.

(** ** The dependency graph *)

Lemma vertex_set_dict_set (g : pydict) name (vd : pydict) :
  vertex_set g name vd (dict_set name (VDict vd) g).
Proof.
  intros n. destruct (String.eqb_spec n name) as [->|Hne].
  - apply dict_find_set_same.
  - apply dict_find_set_other, Hne.
Qed.

Lemma vertex_set_trans (g g1 g2 : pydict) name (vd1 vd2 : pydict) :
  vertex_set g name vd1 g1 -> vertex_set g1 name vd2 g2 ->
  vertex_set g name vd2 g2.
Proof.
  intros H1 H2 n. rewrite H2.
  destruct (String.eqb n name) eqn:E; [reflexivity|].
  rewrite H1, E. reflexivity.
Qed.

Lemma setitem2_vertex (g : pydict) name key val (vd : pydict) :
  dict_find name g = Some (VDict vd) ->
  setitem2 g name key val
  = Ok (dict_set name (VDict (dict_set key val vd)) g).
Proof.
  intros H. unfold setitem2, dict_get. rewrite H. reflexivity.
Qed.

Lemma getitem2_field (g : pydict) name key v :
  field g name key = Some v -> getitem2 g name key = Ok v.
Proof.
  unfold field, getitem2, dict_get.
  destruct (dict_find name g) as [[]|]; try discriminate.
  cbn [bind]. intros ->. reflexivity.
Qed.

Lemma field_vertex_set (g g' : pydict) name (vd : pydict) n key :
  vertex_set g name vd g' ->
  field g' n key = if String.eqb n name then dict_find key vd
                   else field g n key.
Proof.
  intros H. unfold field. rewrite H.
  destruct (String.eqb n name); reflexivity.
Qed.

Lemma dict_has_vertex_set (g g' : pydict) name (vd : pydict) n :
  vertex_set g name vd g' ->
  dict_has n g' = String.eqb n name || dict_has n g.
Proof.
  intros H. unfold dict_has. rewrite H.
  destruct (String.eqb n name); reflexivity.
Qed.

Lemma graph_wf_vertex_set (g g' : pydict) name (vd : pydict) l :
  graph_wf g -> vertex_set g name vd g' ->
  dict_find "dependants" vd = Some (VList l) -> graph_wf g'.
Proof.
  intros Hwf H Hd n v. rewrite H.
  destruct (String.eqb n name).
  - intros E. inversion E; subst. eauto.
  - apply Hwf.
Qed.

(** Making sure [name] is a vertex: the first step of [update_vertex]. *)
Lemma ensure_vertex (g : pydict) name :
  graph_wf g ->
  exists g1 vd l,
    (if negb (dict_has name g) then
       depgraph <- setitem2 (dict_set name (VDict []) g) name
                            "dependencies" (VList []) ;;
       setitem2 depgraph name "dependants" (VList [])
     else Ok g) = Ok g1
    /\ vertex_set g name vd g1
    /\ dict_find "dependants" vd = Some (VList l)
    /\ l = dependants_of g name
    /\ dict_find "spec" vd = field g name "spec"
    /\ (dict_has name g = true ->
        dict_find "dependencies" vd = field g name "dependencies").
Proof.
  intros Hwf. unfold dict_has, dependants_of, field.
  destruct (dict_find name g) as [v|] eqn:Hf; cbn [negb].
  - destruct (Hwf name v Hf) as (vd & l & -> & Hd).
    exists g, vd, l. rewrite Hd.
    split; [reflexivity|]. split.
    { intros n. destruct (String.eqb_spec n name) as [->|]; auto. }
    split; [reflexivity|]. split; [reflexivity|].
    split; [reflexivity|]. intros _. reflexivity.
  - rewrite (setitem2_vertex _ name "dependencies" (VList []) [])
      by apply dict_find_set_same.
    cbn [bind].
    rewrite (setitem2_vertex _ name "dependants" (VList []) _)
      by apply dict_find_set_same.
    eexists _, _, []. split; [reflexivity|]. split.
    { eapply vertex_set_trans; [|apply vertex_set_dict_set].
      eapply vertex_set_trans; [|apply vertex_set_dict_set].
      apply vertex_set_dict_set. }
    split; [reflexivity|]. split; [reflexivity|].
    split; [reflexivity|]. intros H. discriminate H.
Qed.

(** A call made for a dependency: [update_vertex(depgraph, dependency,
    dependant=spec)]. *)
Lemma update_vertex_dependant (depth : nat) (g : pydict) dn spec :
  graph_wf g -> truthy spec = true ->
  exists g',
    update_vertex (S depth) g dn VNone VNone spec = Ok g'
    /\ graph_wf g'
    /\ (forall n, dependants_of g' n
                  = dependants_of g n
                    ++ (if String.eqb n dn then [spec] else []))
    /\ (forall n, field g' n "spec" = field g n "spec")
    /\ (forall n, dict_has n g' = String.eqb n dn || dict_has n g)
    /\ (forall n, dict_has n g = true ->
                  field g' n "dependencies" = field g n "dependencies").
Proof.
  intros Hwf Hspec.
  destruct (ensure_vertex g dn Hwf)
    as (g1 & vd & l & Hg1 & Hset & Hd & Hl & Hs & Hdeps).
  cbn [update_vertex]. rewrite Hg1. cbn [bind truthy]. rewrite Hspec.
  assert (Hfind : dict_find dn g1 = Some (VDict vd)).
  { rewrite Hset, String.eqb_refl. reflexivity. }
  unfold append2.
  rewrite (getitem2_field g1 dn "dependants" (VList l)).
  2:{ rewrite (field_vertex_set g g1 dn vd dn _ Hset), String.eqb_refl.
      exact Hd. }
  cbn [bind]. rewrite (setitem2_vertex g1 dn _ _ vd Hfind).
  set (vd' := dict_set "dependants" (VList (l ++ [spec])) vd).
  assert (Hset' : vertex_set g dn vd'
                    (dict_set dn (VDict vd') g1)).
  { eapply vertex_set_trans; [exact Hset|apply vertex_set_dict_set]. }
  eexists. split; [reflexivity|]. split; [|split; [|split; [|split]]].
  - eapply graph_wf_vertex_set; [exact Hwf|exact Hset'|].
    apply dict_find_set_same.
  - intros n. unfold dependants_of at 1.
    rewrite (field_vertex_set g _ dn vd' n _ Hset').
    destruct (String.eqb_spec n dn) as [->|_].
    + unfold vd'. rewrite dict_find_set_same, Hl. reflexivity.
    + rewrite app_nil_r. reflexivity.
  - intros n. rewrite (field_vertex_set g _ dn vd' n _ Hset').
    destruct (String.eqb_spec n dn) as [->|_]; [|reflexivity].
    unfold vd'. rewrite dict_find_set_other by discriminate. exact Hs.
  - intros n. apply (dict_has_vertex_set g _ dn vd'), Hset'.
  - intros n Hn. rewrite (field_vertex_set g _ dn vd' n _ Hset').
    destruct (String.eqb_spec n dn) as [->|_]; [|reflexivity].
    unfold vd'. rewrite dict_find_set_other by discriminate.
    apply Hdeps, Hn.
Qed.

Lemma occurrences_cons n d (deps : list string) :
  occurrences n (d :: deps)
  = (if String.eqb n d then 1 else 0) + occurrences n deps.
Proof.
  unfold occurrences. cbn [count_occ].
  destruct (string_dec d n) as [->|Hne].
  - rewrite String.eqb_refl. reflexivity.
  - destruct (String.eqb_spec n d); [congruence|reflexivity].
Qed.

(** The loop of [update_vertex] over the dependencies. *)
Lemma update_vertex_loop (depth : nat) name spec (deps : list string) :
  truthy spec = true ->
  forall g,
    graph_wf g -> field g name "spec" = Some spec ->
    exists g',
      for_each
        (fun depgraph dependency =>
           match dependency with
           | VStr dependency =>
               spec <- getitem2 depgraph name "spec" ;;
               update_vertex (S depth) depgraph dependency VNone VNone spec
           | _ => Raise TypeError
           end)
        (map VStr deps) g = Ok g'
      /\ graph_wf g'
      /\ (forall n, dependants_of g' n
                    = dependants_of g n ++ repeat spec (occurrences n deps))
      /\ (forall n, field g' n "spec" = field g n "spec")
      /\ (forall n, dict_has n g'
                    = existsb (String.eqb n) deps || dict_has n g)
      /\ (forall n, dict_has n g = true ->
                    field g' n "dependencies" = field g n "dependencies").
Proof.
  intros Hspec. induction deps as [|d deps IH]; intros g Hwf Hs;
    cbn [map for_each].
  - exists g. split; [reflexivity|]. split; [exact Hwf|].
    split; [intros n; cbn [repeat]; rewrite app_nil_r; reflexivity|].
    split; [reflexivity|]. split; reflexivity.
  - rewrite (getitem2_field g name "spec" spec Hs). cbn [bind].
    destruct (update_vertex_dependant depth g d spec Hwf Hspec)
      as (g1 & -> & Hwf1 & Hd1 & Hs1 & Hh1 & Hdeps1).
    cbn [bind].
    destruct (IH g1 Hwf1) as (g' & Hg' & Hwf' & Hd' & Hs' & Hh' & Hdeps').
    { rewrite Hs1. exact Hs. }
    exists g'. split; [exact Hg'|]. split; [exact Hwf'|].
    split; [|split; [|split]].
    + intros n. rewrite Hd', Hd1, <- app_assoc. f_equal.
      rewrite occurrences_cons.
      destruct (String.eqb n d); reflexivity.
    + intros n. rewrite Hs', Hs1. reflexivity.
    + intros n. rewrite Hh', Hh1. cbn [existsb].
      destruct (String.eqb n d), (existsb (String.eqb n) deps); reflexivity.
    + intros n Hn. rewrite Hdeps'; [apply Hdeps1, Hn|].
      rewrite Hh1, Hn. apply orb_true_r.
Qed.

Lemma update_vertex_S (depth : nat) (g : pydict) name
    (ec_file dependencies dependant : value) :
  update_vertex (S depth) g name ec_file dependencies dependant
  = (depgraph <-
       (if negb (dict_has name g) then
          depgraph <- setitem2 (dict_set name (VDict []) g) name
                               "dependencies" (VList []) ;;
          setitem2 depgraph name "dependants" (VList [])
        else Ok g) ;;
     depgraph <-
       (if truthy ec_file then setitem2 depgraph name "spec" ec_file
        else Ok depgraph) ;;
     depgraph <-
       (if truthy dependencies then
          depgraph <- setitem2 depgraph name "dependencies" dependencies ;;
          deps <- iter dependencies ;;
          for_each
            (fun depgraph dependency =>
               match dependency with
               | VStr dependency =>
                   spec <- getitem2 depgraph name "spec" ;;
                   update_vertex depth depgraph dependency VNone VNone spec
               | _ => Raise TypeError
               end)
            deps depgraph
        else Ok depgraph) ;;
     if truthy dependant then append2 depgraph name "dependants" dependant
     else Ok depgraph).
Proof. reflexivity. Qed.

Lemma update_vertex_with_file (depth : nat) (g : pydict) name f
    (deps : list string) :
  graph_wf g -> f <> "" ->
  exists g',
    update_vertex (S (S depth)) g name (VStr f) (VList (map VStr deps)) VNone
    = Ok g'
    /\ graph_wf g'
    /\ field g' name "spec" = Some (VStr f)
    /\ (forall n, dependants_of g' n
                  = dependants_of g n ++ repeat (VStr f) (occurrences n deps))
    /\ (forall n, dict_has n g'
                  = String.eqb n name || existsb (String.eqb n) deps
                    || dict_has n g)
    /\ (deps <> [] ->
        field g' name "dependencies" = Some (VList (map VStr deps))).
Proof.
  intros Hwf Hf.
  destruct (ensure_vertex g name Hwf)
    as (g1 & vd & l & Hg1 & Hset & Hd & Hl & _ & _).
  rewrite update_vertex_S, Hg1. cbn [bind truthy].
  destruct (String.eqb_spec f "") as [E|_]; [contradiction|]. cbn [negb].
  assert (Hfind : dict_find name g1 = Some (VDict vd)).
  { rewrite Hset, String.eqb_refl. reflexivity. }
  rewrite (setitem2_vertex g1 name _ _ vd Hfind). cbn [bind].
  set (vd2 := dict_set "spec" (VStr f) vd).
  set (g2 := dict_set name (VDict vd2) g1).
  assert (Hset2 : vertex_set g name vd2 g2).
  { eapply vertex_set_trans; [exact Hset|apply vertex_set_dict_set]. }
  assert (Hd2 : dict_find "dependants" vd2 = Some (VList l)).
  { unfold vd2. rewrite dict_find_set_other by discriminate. exact Hd. }
  assert (Hwf2 : graph_wf g2).
  { eapply graph_wf_vertex_set; [exact Hwf|exact Hset2|exact Hd2]. }
  assert (Hdep2 : forall n, dependants_of g2 n = dependants_of g n).
  { intros n. unfold dependants_of at 1.
    rewrite (field_vertex_set g g2 name vd2 n _ Hset2).
    destruct (String.eqb_spec n name) as [->|_]; [|reflexivity].
    rewrite Hd2, Hl. reflexivity. }
  destruct deps as [|d deps].
  - cbn [map List.length Nat.eqb negb].
    exists g2. split; [reflexivity|]. split; [exact Hwf2|].
    split; [|split; [|split]].
    + rewrite (field_vertex_set g g2 name vd2 name _ Hset2),
        String.eqb_refl.
      apply dict_find_set_same.
    + intros n. rewrite Hdep2. cbn [repeat]. rewrite app_nil_r.
      reflexivity.
    + intros n. rewrite (dict_has_vertex_set g g2 name vd2 n Hset2).
      cbn [existsb]. rewrite orb_false_r. reflexivity.
    + intros H. contradiction.
  - set (ds := d :: deps).
    replace (truthy (VList (map VStr ds))) with true by reflexivity.
    assert (Hfind2 : dict_find name g2 = Some (VDict vd2)).
    { rewrite Hset2, String.eqb_refl. reflexivity. }
    rewrite (setitem2_vertex g2 name _ _ vd2 Hfind2). cbn [bind iter].
    set (vd3 := dict_set "dependencies" (VList (map VStr ds)) vd2).
    set (g3 := dict_set name (VDict vd3) g2).
    assert (Hset3 : vertex_set g name vd3 g3).
    { eapply vertex_set_trans; [exact Hset2|apply vertex_set_dict_set]. }
    assert (Hd3 : dict_find "dependants" vd3 = Some (VList l)).
    { unfold vd3. rewrite dict_find_set_other by discriminate. exact Hd2. }
    assert (Hwf3 : graph_wf g3).
    { eapply graph_wf_vertex_set; [exact Hwf|exact Hset3|exact Hd3]. }
    assert (Hs3 : field g3 name "spec" = Some (VStr f)).
    { rewrite (field_vertex_set g g3 name vd3 name _ Hset3),
        String.eqb_refl.
      unfold vd3. rewrite dict_find_set_other by discriminate.
      apply dict_find_set_same. }
    assert (Htr : truthy (VStr f) = true).
    { cbn [truthy]. destruct (String.eqb_spec f ""); [contradiction|].
      reflexivity. }
    destruct (update_vertex_loop depth name (VStr f) ds Htr g3 Hwf3 Hs3)
      as (g' & Hg' & Hwf' & Hd' & Hs' & Hh' & Hdeps').
    rewrite Hg'. cbn [bind].
    exists g'. split; [reflexivity|]. split; [exact Hwf'|].
    split; [|split; [|split]].
    + rewrite Hs'. exact Hs3.
    + intros n. rewrite Hd'. f_equal. unfold dependants_of at 1.
      rewrite (field_vertex_set g g3 name vd3 n _ Hset3).
      destruct (String.eqb_spec n name) as [->|_]; [|reflexivity].
      rewrite Hd3, Hl. reflexivity.
    + intros n. rewrite Hh', (dict_has_vertex_set g g3 name vd3 n Hset3).
      destruct (String.eqb n name), (existsb (String.eqb n) ds),
        (dict_has n g); reflexivity.
    + intros _. rewrite Hdeps'.
      * rewrite (field_vertex_set g g3 name vd3 name _ Hset3),
          String.eqb_refl.
        apply dict_find_set_same.
      * rewrite (dict_has_vertex_set g g3 name vd3 name Hset3),
          String.eqb_refl. reflexivity.
Qed.

(** X16: on a graph built by [update_vertex], a call with a file name and
    a list of dependency names succeeds.  Afterwards the vertex has the
    file as its spec and, when the list is not empty, the list as its
    dependencies; every name in the list is a vertex; and each name has
    gained the file among its dependants once for each time it occurs in
    the list, the dependants recorded before being kept. *)
Theorem update_vertex_records (depth : nat) (g : pydict) (name f : string)
    (deps : list string) :
  graph_wf g -> f <> "" ->
  exists g',
    update_vertex (S (S depth)) g name (VStr f) (VList (map VStr deps)) VNone
    = Ok g'
    /\ graph_wf g'
    /\ field g' name "spec" = Some (VStr f)
    /\ (forall n, dependants_of g' n
                  = dependants_of g n ++ repeat (VStr f) (occurrences n deps))
    /\ (forall n, dict_has n g'
                  = String.eqb n name || existsb (String.eqb n) deps
                    || dict_has n g)
    /\ (deps <> [] ->
        field g' name "dependencies" = Some (VList (map VStr deps))).
Proof. apply update_vertex_with_file. Qed.

Lemma graph_wf_empty : graph_wf [].
Proof. intros n v H. discriminate H. Qed.

Lemma update_vertex_records_witness :
  exists g',
    update_vertex 2 [] "a/1" (VStr "a.eb")
                  (VList (map VStr ["b/1"; "c/1"; "b/1"])) VNone = Ok g'
    /\ graph_wf g'
    /\ field g' "a/1" "spec" = Some (VStr "a.eb")
    /\ (forall n, dependants_of g' n
                  = dependants_of [] n
                    ++ repeat (VStr "a.eb")
                              (occurrences n ["b/1"; "c/1"; "b/1"]))
    /\ (forall n, dict_has n g'
                  = String.eqb n "a/1"
                    || existsb (String.eqb n) ["b/1"; "c/1"; "b/1"]
                    || dict_has n [])
    /\ (["b/1"; "c/1"; "b/1"] <> [] ->
        field g' "a/1" "dependencies"
        = Some (VList (map VStr ["b/1"; "c/1"; "b/1"]))).
Proof.
  apply (update_vertex_records 0 [] "a/1" "a.eb" ["b/1"; "c/1"; "b/1"]).
  - exact graph_wf_empty.
  - discriminate.
Defined.

(** X17: dependencies cannot be recorded for a vertex that has no spec:
    called without a file name for such a vertex, with a non-empty list of
    dependency names, [update_vertex] raises [KeyError]. *)
Theorem update_vertex_without_spec (depth : nat) (g : pydict)
    (name : string) (ec_file dependant : value) (deps : list string) :
  graph_wf g -> truthy ec_file = false -> field g name "spec" = None ->
  deps <> [] ->
  update_vertex (S depth) g name ec_file (VList (map VStr deps)) dependant
  = Raise KeyError.
Proof.
  intros Hwf Hec Hs Hdeps.
  destruct (ensure_vertex g name Hwf)
    as (g1 & vd & l & Hg1 & Hset & Hd & Hl & Hspec & _).
  cbn [update_vertex]. rewrite Hg1. cbn [bind]. rewrite Hec. cbn [bind].
  destruct deps as [|d deps]; [contradiction|].
  replace (truthy (VList (map VStr (d :: deps)))) with true by reflexivity.
  assert (Hfind : dict_find name g1 = Some (VDict vd)).
  { rewrite Hset, String.eqb_refl. reflexivity. }
  rewrite (setitem2_vertex g1 name _ _ vd Hfind).
  cbn [bind iter map for_each]. unfold getitem2, dict_get.
  rewrite dict_find_set_same. cbn [bind].
  rewrite dict_find_set_other by discriminate. rewrite Hspec, Hs.
  reflexivity.
Qed.

Lemma update_vertex_without_spec_witness :
  update_vertex 1 [] "a/1" VNone (VList (map VStr ["b/1"])) VNone
  = Raise KeyError.
Proof.
  apply (update_vertex_without_spec 0 [] "a/1" VNone VNone ["b/1"]).
  - exact graph_wf_empty.
  - reflexivity.
  - reflexivity.
  - discriminate.
Defined.

Lemma add_candidates_dependants (depth : nat)
    (candidates : list (string * (string * list string))) :
  (forall c, In c candidates -> fst c <> "") ->
  forall g, graph_wf g ->
    exists g',
      add_candidates (S (S depth)) candidates g = Ok g'
      /\ graph_wf g'
      /\ forall n,
           dependants_of g' n
           = dependants_of g n
             ++ flat_map (fun c => repeat (VStr (fst c))
                                          (occurrences n (snd (snd c))))
                         candidates.
Proof.
  induction candidates as [|[f [name deps]] rest IH]; intros Hfiles g Hwf.
  - exists g. split; [reflexivity|]. split; [exact Hwf|].
    intros n. cbn [flat_map]. rewrite app_nil_r. reflexivity.
  - cbn [add_candidates].
    destruct (update_vertex_with_file depth g name f deps Hwf)
      as (g1 & Hg1 & Hwf1 & _ & Hd1 & _).
    { apply (Hfiles (f, (name, deps))). left. reflexivity. }
    rewrite Hg1. cbn [bind].
    destruct (IH (fun c Hc => Hfiles c (or_intror Hc)) g1 Hwf1)
      as (g' & Hg' & Hwf' & Hd').
    exists g'. split; [exact Hg'|]. split; [exact Hwf'|].
    intros n. rewrite Hd', Hd1, <- app_assoc. reflexivity.
Qed.

Lemma collect_dependants_all (ecs : list string) (g : pydict) :
  graph_wf g ->
  forall dependants,
    collect_dependants ecs g dependants
    = Ok (dependants ++ flat_map (dependants_of g) ecs).
Proof.
  intros Hwf. induction ecs as [|name rest IH]; intros dependants;
    cbn [collect_dependants flat_map].
  - rewrite app_nil_r. reflexivity.
  - assert (Hstep :
      (if dict_has name g then
         l <- getitem2 g name "dependants" ;;
         more <- iter l ;; Ok (dependants ++ more)
       else Ok dependants) = Ok (dependants ++ dependants_of g name)).
    { unfold dict_has, dependants_of, field, getitem2, dict_get.
      destruct (dict_find name g) as [v|] eqn:Hf.
      - destruct (Hwf name v Hf) as (vd & l & -> & Hd).
        cbn [bind]. rewrite Hd. reflexivity.
      - rewrite app_nil_r. reflexivity. }
    rewrite Hstep. cbn [bind]. rewrite IH, <- app_assoc. reflexivity.
Qed.

(** X18: the graph the script builds from the candidate files, starting
    empty, records the reverse dependencies: the dependants it gathers for
    a list of names are, name after name, every candidate file, in the
    order of the candidates, once for each time the name occurs among the
    dependencies of that file. *)
Theorem reverse_dependencies_gathered (depth : nat)
    (candidates : list (string * (string * list string)))
    (ecs : list string) :
  (forall c, In c candidates -> fst c <> "") ->
  exists depgraph,
    add_candidates (S (S depth)) candidates [] = Ok depgraph
    /\ collect_dependants ecs depgraph []
       = Ok (flat_map
               (fun name =>
                  flat_map (fun c => repeat (VStr (fst c))
                                            (occurrences name (snd (snd c))))
                           candidates)
               ecs).
Proof.
  intros Hfiles.
  destruct (add_candidates_dependants depth candidates Hfiles []
              graph_wf_empty) as (g & Hg & Hwf & Hd).
  exists g. split; [exact Hg|].
  rewrite (collect_dependants_all ecs g Hwf). cbn [app]. f_equal.
  apply flat_map_ext. intros n. rewrite Hd. reflexivity.
Qed.

Lemma reverse_dependencies_gathered_witness :
  exists depgraph,
    add_candidates 2 [("a.eb", ("a/1", ["b/1"])); ("b.eb", ("b/1", []));
                      ("c.eb", ("c/1", ["b/1"; "a/1"]))] [] = Ok depgraph
    /\ collect_dependants ["b/1"; "zz"] depgraph []
       = Ok [VStr "a.eb"; VStr "c.eb"].
Proof.
  apply (reverse_dependencies_gathered 0
           [("a.eb", ("a/1", ["b/1"])); ("b.eb", ("b/1", []));
            ("c.eb", ("c/1", ["b/1"; "a/1"]))] ["b/1"; "zz"]).
  intros c [<-|[<-|[<-|[]]]]; discriminate.
Defined.

(** ** More on the matcher's requirements *)

Lemma any_true_iff {A : Type} (f : A -> result bool) (l : list A) :
  any f l = Ok true <->
  exists pre x post,
    l = pre ++ x :: post
    /\ Forall (fun y => f y = Ok false) pre /\ f x = Ok true.
Proof.
  induction l as [|y r IH]; cbn [any].
  - split; [discriminate|]. intros (pre & x & post & E & _).
    destruct pre; discriminate.
  - split.
    + destruct (f y) as [[|]|] eqn:Hy; cbn [bind]; try discriminate.
      * intros _. exists [], y, r. repeat split; auto.
      * intros H. apply IH in H as (pre & x & post & -> & Hpre & Hx).
        exists (y :: pre), x, post. repeat split; auto.
    + intros (pre & x & post & E & Hpre & Hx).
      destruct pre as [|z pre]; cbn [app] in E; inversion E; subst.
      * rewrite Hx. reflexivity.
      * inversion Hpre as [|? ? Hz Hpre']; subst. rewrite Hz. cbn [bind].
        apply IH. exists pre, x, post. repeat split; auto.
Qed.

Lemma comprehension_all_true {A : Type} (f : A -> result bool) (l : list A) :
  (exists bs, comprehension f l = Ok bs /\ all bs = true)
  <-> Forall (fun x => f x = Ok true) l.
Proof.
  induction l as [|x r IH]; cbn [comprehension].
  - split; [constructor|]. intros _. exists []. auto.
  - split.
    + intros (bs & H & Hall).
      destruct (f x) as [b|] eqn:Hx; [|discriminate]. cbn [bind] in H.
      destruct (comprehension f r) as [bs'|] eqn:Hr; [|discriminate].
      cbn [bind] in H. inversion H; subst. unfold all in Hall.
      cbn [forallb] in Hall. apply andb_true_iff in Hall as [Hb Hall].
      subst b. constructor; [exact Hx|]. apply IH. eauto.
    + intros H. inversion H as [|? ? Hx Hr]; subst.
      apply IH in Hr as (bs & Hr & Hall). rewrite Hx, Hr. cbn [bind].
      exists (true :: bs). split; [reflexivity|]. exact Hall.
Qed.

Section Sequences.
Variables easy_types checkable_types : list value.

Local Abbreviation matcher :=
  (is_value_of_type easy_types checkable_types).

(** X19: for a registered list type whose only requirement is
    [value_types], a list matches iff each of its elements is accepted by
    one of the admissible types, every type listed before that one having
    answered false; the types listed after it are not consulted. *)
Theorem matches_sequence_iff (depth : nat) (l ts : list value)
    (T reqs : value) :
  contains T easy_types = false ->
  contains T checkable_types = true ->
  getitem T 0 = Ok (VClass list_) ->
  getitem T 1 = Ok reqs ->
  dict_of reqs = Ok [("value_types", VTuple ts)] ->
  (matcher (S depth) (VList l) T = Ok true <->
   Forall (fun el =>
             exists pre t post,
               ts = pre ++ t :: post
               /\ Forall (fun t' => matcher depth el t' = Ok false) pre
               /\ matcher depth el t = Ok true) l).
Proof.
  intros He Hc H0 H1 Hd.
  rewrite (is_value_of_type_compound easy_types checkable_types depth
             (VList l) T (VClass list_) reqs _ He Hc H0 H1 Hd).
  cbn [isinstance isinstance_class bind checkers_for value_eqb pyclass_eqb
       keys map fst check_requirements list_checkers String.eqb Ascii.eqb
       Bool.eqb].
  unfold check_value_types_list. cbn [iter bind].
  assert (Hany : forall el,
    any_type (matcher depth) [("value_types", VTuple ts)] "value_types" el
    = any (fun t => matcher depth el t) ts) by reflexivity.
  transitivity
    (Forall (fun el =>
               any_type (matcher depth) [("value_types", VTuple ts)]
                        "value_types" el = Ok true) l).
  - rewrite <- comprehension_all_true. split.
    + destruct (comprehension _ l) as [bs|]; cbn [bind]; [|discriminate].
      intros H. inversion H. eauto.
    + intros (bs & -> & Hall). cbn [bind]. rewrite Hall. reflexivity.
  - split; intros H; (eapply Forall_impl; [|exact H]); intros el Hel.
    + cbv beta in Hel. apply any_true_iff. rewrite <- Hany. exact Hel.
    + cbv beta in Hel. apply any_true_iff in Hel. rewrite Hany. exact Hel.
Qed.
End Sequences.

Lemma matches_sequence_iff_witness :
  matches 2 (VList [VDict [("name", VStr "a"); ("version", VStr "1")]])
          DEPENDENCIES = Ok true.
Proof.
  apply (proj2 (matches_sequence_iff EASY_TYPES CHECKABLE_TYPES 1
                  [VDict [("name", VStr "a"); ("version", VStr "1")]]
                  [DEPENDENCY_DICT] DEPENDENCIES _
                  eq_refl eq_refl eq_refl eq_refl eq_refl)).
  constructor; [|constructor].
  exists [], DEPENDENCY_DICT, []. repeat split; constructor.
Defined.

Section OptKeys.
Variables easy_types checkable_types : list value.

Local Abbreviation matcher :=
  (is_value_of_type easy_types checkable_types).

(** X20: the [opt_keys] requirement needs [required_keys] beside it: for a
    registered dict type that declares [opt_keys] alone, matching a dict
    with at least one key raises [KeyError]; only the empty dict is
    answered, with true. *)
Theorem opt_keys_needs_required_keys (depth : nat) (d : pydict)
    (T reqs opt : value) :
  contains T easy_types = false ->
  contains T checkable_types = true ->
  getitem T 0 = Ok (VClass dict) ->
  getitem T 1 = Ok reqs ->
  dict_of reqs = Ok [("opt_keys", opt)] ->
  matcher (S depth) (VDict d) T
  = match d with
    | [] => Ok true
    | _ :: _ => Raise KeyError
    end.
Proof.
  intros He Hc H0 H1 Hd.
  rewrite (is_value_of_type_compound easy_types checkable_types depth
             (VDict d) T (VClass dict) reqs _ He Hc H0 H1 Hd).
  destruct d as [|[k v] r]; reflexivity.
Qed.
End OptKeys.

Lemma opt_keys_needs_required_keys_witness :
  let T := VTuple [VClass dict;
                   VTuple [VTuple [VStr "opt_keys"; VTuple [VStr "a"]]]] in
  is_value_of_type EASY_TYPES [T] 1 (VDict [("a", VInt 1)]) T
  = Raise KeyError.
Proof.
  intros T.
  apply (opt_keys_needs_required_keys EASY_TYPES [T] 0 [("a", VInt 1)] T
           _ (VTuple [VStr "a"]) eq_refl eq_refl eq_refl eq_refl eq_refl).
Defined.

(** ** The checker with conversion, parameter by parameter *)

Section AutoConvert.
Variables sb ib fb : value -> result value.

(** X21: with [auto_convert] the checker never answers false.  For
    [toolchain] and [dependencies] it returns a matching value as it is and
    otherwise what the coercion function makes of it, a failure of that
    function being raised as a conversion failure; for [name] and [version]
    it returns a string as it is and otherwise what [str] makes of the
    value, provided that is a string. *)
Theorem check_with_conversion (depth : nat) (val : value) :
  check sb ib fb (S (S depth)) "toolchain" val true
  = (if is_name_version_dict val then Ok (true, val)
     else res <- wrap_failure (to_name_version_dict val) ;; Ok (true, res))
  /\ check sb ib fb (S (S depth)) "dependencies" val true
     = (if is_dependencies val then Ok (true, val)
        else res <- wrap_failure (to_dependencies val) ;; Ok (true, res))
  /\ (forall key, key = "name" \/ key = "version" ->
        check sb ib fb (S (S depth)) key val true
        = (if isinstance_class val basestring then Ok (true, val)
           else res <- wrap_failure (sb val) ;;
                if isinstance_class res basestring then Ok (true, res)
                else Raise ConversionUnexpected))
  /\ (forall key type_ok out,
        check sb ib fb (S (S depth)) key val true = Ok (type_ok, out) ->
        type_ok = true).
Proof.
  split; [|split; [|split]].
  - rewrite (check_registered sb ib fb _ "toolchain" val true
               NAME_VERSION_DICT eq_refl).
    rewrite matches_NAME_VERSION_DICT, convert_NAME_VERSION_DICT.
    cbn [bind]. destruct (is_name_version_dict val); reflexivity.
  - rewrite (check_registered sb ib fb _ "dependencies" val true
               DEPENDENCIES eq_refl).
    rewrite matches_DEPENDENCIES, convert_DEPENDENCIES.
    cbn [bind]. destruct (is_dependencies val); reflexivity.
  - intros key Hkey.
    rewrite (check_registered sb ib fb _ key val true (VClass basestring))
      by (destruct Hkey as [-> | ->]; reflexivity).
    change (matches (S (S depth)) val (VClass basestring))
      with (@Ok bool (isinstance_class val basestring)).
    cbn [bind]. destruct (isinstance_class val basestring) eqn:Hi;
      [reflexivity|].
    unfold convert, convert_value_type.
    cbn [contains existsb value_eqb pyclass_eqb EASY_TYPES orb bind
         isinstance]. rewrite Hi. cbn [bind].
    change (contains (VClass basestring) CHECKABLE_TYPES) with false.
    cbn [bind negb hashable lookup TYPE_CONVERSION_FUNCTIONS value_eqb
         pyclass_eqb].
    destruct (sb val) as [res|err]; cbn [bind wrap_failure];
      [|reflexivity].
    destruct (isinstance_class res basestring); reflexivity.
  - intros key type_ok out.
    unfold check, check_type_of_param_value.
    destruct (_ : result bool) as [[|]|]; cbn [bind];
      try discriminate.
    + intros H. inversion H. reflexivity.
    + destruct (convert_value_type _ _ _ _ _ _) as [r|]; cbn [bind];
        [|discriminate].
      intros H. inversion H. reflexivity.
Qed.
End AutoConvert.

Lemma check_with_conversion_witness :
  check unused_builtin unused_builtin unused_builtin 2 "name" (VStr "gcc")
        true
  = Ok (true, VStr "gcc").
Proof.
  apply (proj1 (proj2 (proj2 (check_with_conversion unused_builtin
           unused_builtin unused_builtin 0 (VStr "gcc"))))).
  left. reflexivity.
Defined.

(** ** The dependency coercion on dicts, continued *)

Lemma to_dependency_loop_bad_toolchain (rest : pydict) tcv err :
  to_name_version_dict tcv = Raise err ->
  forall (p : pydict) (found : bool),
    keys_among DEPENDENCY_KEYS rest = true ->
    dict_find "toolchain" rest = Some tcv ->
    to_dependency_loop (p, found) rest = Raise err.
Proof.
  intros Htc. induction rest as [|[k v] rest IH]; intros p found Hkeys Hf;
    [discriminate|].
  cbn [to_dependency_loop]. cbn [dict_find] in Hf.
  assert (Hk : In k DEPENDENCY_KEYS).
  { apply (proj1 (keys_among_spec _ _) Hkeys). left. reflexivity. }
  assert (Hrest : keys_among DEPENDENCY_KEYS rest = true).
  { apply keys_among_spec. intros y Hy.
    apply (proj1 (keys_among_spec _ _) Hkeys). right. exact Hy. }
  unfold DEPENDENCY_KEYS in Hk. cbn [In] in Hk.
  destruct Hk as [<-|[<-|[<-|[<-|[]]]]];
    cbn [String.eqb Ascii.eqb Bool.eqb] in Hf;
    unfold to_dependency_step;
    cbn [existsb String.eqb Ascii.eqb Bool.eqb orb andb bind].
  1-3: apply IH; assumption.
  inversion Hf; subst. rewrite Htc. reflexivity.
Qed.

(** X22: a toolchain that cannot be coerced to a name/version dict makes
    the dependency invalid: for a dict whose keys are among name, version,
    versionsuffix and toolchain, [to_dependency] raises what the
    name/version coercion raises on the toolchain. *)
Theorem to_dependency_bad_toolchain (d : pydict) (tcv : value) (err : exn) :
  keys_among DEPENDENCY_KEYS d = true ->
  dict_find "toolchain" d = Some tcv ->
  to_name_version_dict tcv = Raise err ->
  to_dependency (VDict d) = Raise err.
Proof.
  intros Hkeys Hf Htc. cbn [to_dependency].
  pose proof (to_dependency_loop_bad_toolchain d tcv err Htc [] false
                Hkeys Hf) as Hl.
  unfold pydict in *. rewrite Hl. reflexivity.
Qed.

Lemma to_dependency_bad_toolchain_witness :
  to_dependency (VDict [("name", VStr "foo"); ("version", VStr "1");
                        ("toolchain", VStr "GCC")])
  = Raise NameVersionListLength.
Proof.
  apply (to_dependency_bad_toolchain _ (VStr "GCC")); reflexivity.
Defined.

Lemma free_key_neq k :
  free_key k = true ->
  k <> "name" /\ k <> "version" /\ k <> "versionsuffix" /\ k <> "toolchain".
Proof.
  intros H. repeat split; intros ->; discriminate H.
Qed.

Lemma to_dependency_loop_free_key k v (rest : pydict) :
  free_key k = true ->
  forall (p : pydict) (found : bool) st',
    (forall k' v', In (k', v') rest ->
       (k' = k /\ v' = v) \/ k' = "versionsuffix" \/ k' = "toolchain") ->
    NoDup (keys rest) ->
    to_dependency_loop (p, found) rest = Ok st' ->
    dict_find "name" (fst st')
    = (if existsb (String.eqb k) (keys rest) then Some (VStr k)
       else dict_find "name" p)
    /\ dict_find "version" (fst st')
       = (if existsb (String.eqb k) (keys rest) then Some v
          else dict_find "version" p)
    /\ dict_find "versionsuffix" (fst st')
       = match dict_find "versionsuffix" rest with
         | Some x => Some x
         | None => dict_find "versionsuffix" p
         end.
Proof.
  intros Hfree. destruct (free_key_neq k Hfree) as (Hn & Hv & Hs & Ht).
  induction rest as [|[k' v'] rest IH]; intros p found st' Hitems Hnd;
    cbn [to_dependency_loop].
  - intros H. inversion H; subst. cbn [fst]. auto.
  - destruct (to_dependency_step (p, found) (k', v')) as [[p' found']|]
      eqn:Hstep; [|discriminate].
    cbn [bind]. intros Hl.
    cbn [keys map fst] in Hnd. inversion Hnd as [|? ? Hnotin Hnd']; subst.
    fold (keys rest) in *.
    specialize (IH p' found' st'
                  (fun a b Hab => Hitems a b (or_intror Hab)) Hnd' Hl).
    destruct IH as (IHn & IHv & IHs).
    cbn [keys map fst existsb dict_find]. fold (keys rest).
    destruct (Hitems k' v' (or_introl eq_refl)) as [[-> ->]|[-> | ->]].
    + rewrite (free_key_step p found k v Hfree) in Hstep.
      destruct found; [discriminate|]. inversion Hstep; subst p' found'.
      rewrite String.eqb_refl. cbn [orb].
      assert (Hex : existsb (String.eqb k) (keys rest) = false).
      { destruct (existsb (String.eqb k) (keys rest)) eqn:E; [|reflexivity].
        exfalso. apply Hnotin. apply existsb_exists in E as (x & Hx & Ex).
        apply String.eqb_eq in Ex. subst. exact Hx. }
      rewrite Hex in IHn, IHv. rewrite IHn, IHv, IHs.
      rewrite (dict_find_set_other "name" "version") by discriminate.
      rewrite !dict_find_set_same.
      rewrite !(dict_find_set_other "versionsuffix") by discriminate.
      destruct (String.eqb_spec "versionsuffix" k) as [E|_];
        [congruence|]. auto.
    + unfold to_dependency_step in Hstep.
      cbn [existsb String.eqb Ascii.eqb Bool.eqb orb andb bind] in Hstep.
      inversion Hstep; subst p' found'.
      destruct (String.eqb_spec k "versionsuffix") as [E|_];
        [congruence|]. cbn [orb].
      rewrite IHn, IHv, IHs.
      rewrite !(dict_find_set_other _ "versionsuffix") by discriminate.
      rewrite dict_find_set_same. cbn [String.eqb Ascii.eqb Bool.eqb].
      assert (Hvs : dict_find "versionsuffix" rest = None).
      { destruct (dict_find "versionsuffix" rest) eqn:E; [|reflexivity].
        exfalso. apply Hnotin. apply dict_find_In in E.
        change "versionsuffix" with (fst ("versionsuffix", v0)).
        apply in_map, E. }
      rewrite Hvs. auto.
    + unfold to_dependency_step in Hstep.
      cbn [existsb String.eqb Ascii.eqb Bool.eqb orb andb bind] in Hstep.
      destruct (to_name_version_dict v') as [tc|]; [|discriminate].
      cbn [bind] in Hstep. inversion Hstep; subst p' found'.
      destruct (String.eqb_spec k "toolchain") as [E|_];
        [congruence|]. cbn [orb].
      rewrite IHn, IHv, IHs.
      rewrite !(dict_find_set_other _ "toolchain") by discriminate.
      cbn [String.eqb Ascii.eqb Bool.eqb]. auto.
Qed.

(** X23: a key that is none of the four known ones is read as the name and
    its value as the version: when it is the only such key of a dict
    without name and version entries, a result of [to_dependency] has the
    key as name, its value as version, and the versionsuffix of the dict. *)
Theorem to_dependency_free_key (d res : pydict) (k : string) (v : value) :
  dict_wf d -> In (k, v) d -> free_key k = true ->
  (forall k', In k' (keys d) ->
     k' = k \/ k' = "versionsuffix" \/ k' = "toolchain") ->
  to_dependency (VDict d) = Ok (VDict res) ->
  dict_find "name" res = Some (VStr k)
  /\ dict_find "version" res = Some v
  /\ dict_find "versionsuffix" res = dict_find "versionsuffix" d.
Proof.
  intros Hwf Hin Hfree Hkeys. cbn [to_dependency].
  destruct (to_dependency_loop ([], false) d) as [st'|] eqn:Hl;
    [|discriminate].
  cbn [bind]. destruct (snd st'); cbn [negb]; [|discriminate].
  intros H. inversion H; subst res.
  destruct (to_dependency_loop_free_key k v d Hfree [] false st')
    as (Hn & Hv & Hs).
  - intros k' v' Hin'.
    assert (Hk' : In k' (keys d))
      by (change k' with (fst (k', v')); apply in_map, Hin').
    destruct (Hkeys k' Hk') as [->|Hother]; [|right; exact Hother].
    left. split; [reflexivity|].
    pose proof (In_dict_find k v d Hwf Hin) as E1.
    pose proof (In_dict_find k v' d Hwf Hin') as E2. congruence.
  - exact Hwf.
  - exact Hl.
  - assert (Hex : existsb (String.eqb k) (keys d) = true).
    { apply existsb_exists. exists k. split; [|apply String.eqb_refl].
      change k with (fst (k, v)). apply in_map, Hin. }
    rewrite Hex in Hn, Hv. rewrite Hn, Hv, Hs.
    destruct (dict_find "versionsuffix" d); auto.
Qed.

Lemma to_dependency_free_key_witness :
  let res := [("versionsuffix", VStr "-x"); ("name", VStr "foo");
              ("version", VStr "1.2.3");
              ("toolchain",
               VDict [("name", VStr "GCC"); ("version", VStr "4.8.2")])] in
  dict_find "name" res = Some (VStr "foo")
  /\ dict_find "version" res = Some (VStr "1.2.3")
  /\ dict_find "versionsuffix" res = Some (VStr "-x").
Proof.
  intros res.
  apply (to_dependency_free_key
           [("versionsuffix", VStr "-x"); ("foo", VStr "1.2.3");
            ("toolchain", VStr "GCC, 4.8.2")] res "foo" (VStr "1.2.3")).
  - repeat constructor; cbn; intuition discriminate.
  - right. left. reflexivity.
  - reflexivity.
  - cbn. intuition.
  - reflexivity.
Defined.

(** ** The matcher on the module's own tables *)

(** On plain values [==] holds only between identical values. *)
Lemma value_eqb_plain : forall a b,
  plain b = true -> value_eqb a b = true -> a = b.
Proof.
  fix IH 1. intros a b Hplain Heq.
  destruct a as [|z|q|s|l|l|d|c], b as [|z'|q'|s'|l'|l'|d'|c'];
    try discriminate; cbn [plain] in Hplain.
  - reflexivity.
  - apply String.eqb_eq in Heq. congruence.
  - f_equal. revert l' Hplain Heq.
    induction l as [|x r IHr]; intros [|y r'] Hp Hs;
      try reflexivity; try (cbn in Hs; discriminate).
    cbn [forallb] in Hp. apply andb_true_iff in Hp as [Hy Hr'].
    change (value_eqb x y && value_eqb (VList r) (VList r') = true) in Hs.
    apply andb_true_iff in Hs as [Hxy Hs].
    f_equal; [apply IH; assumption|apply IHr; assumption].
  - f_equal. revert l' Hplain Heq.
    induction l as [|x r IHr]; intros [|y r'] Hp Hs;
      try reflexivity; try (cbn in Hs; discriminate).
    cbn [forallb] in Hp. apply andb_true_iff in Hp as [Hy Hr'].
    change (value_eqb x y && value_eqb (VTuple r) (VTuple r') = true) in Hs.
    apply andb_true_iff in Hs as [Hxy Hs].
    f_equal; [apply IH; assumption|apply IHr; assumption].
  - destruct c, c'; try discriminate; reflexivity.
Qed.

Lemma CHECKABLE_TYPES_cases (T : value) :
  contains T CHECKABLE_TYPES = true ->
  T = NAME_VERSION_DICT \/ T = DEPENDENCIES \/ T = DEPENDENCY_DICT.
Proof.
  unfold contains, CHECKABLE_TYPES. cbn [existsb]. intros H.
  apply orb_true_iff in H as [H|H]; [left|right].
  - apply value_eqb_plain; [reflexivity|exact H].
  - apply orb_true_iff in H as [H|H]; [left|right].
    + apply value_eqb_plain; [reflexivity|exact H].
    + rewrite orb_false_r in H. apply value_eqb_plain; [reflexivity|exact H].
Qed.

Lemma compound_not_easy (parent_type reqs : value) :
  contains (VTuple [parent_type; reqs]) EASY_TYPES = false.
Proof. reflexivity. Qed.

Lemma unregistered_raises (depth : nat) (val T : value) :
  contains T EASY_TYPES = false -> contains T CHECKABLE_TYPES = false ->
  matches (S depth) val T = Raise UnknownType.
Proof.
  intros He Hc. unfold matches. cbn [is_value_of_type].
  rewrite He, Hc. reflexivity.
Qed.

(** C3: on the module's tables a defective type specification makes the
    matcher raise its "don't know how to check" error for every value,
    whatever the value's runtime type: this holds for any type that is in
    neither [EASY_TYPES] nor [CHECKABLE_TYPES], and a compound type whose
    parent is neither [dict] nor [list], or which declares a requirement
    without a checker, is such a type, since no registered type is like
    that.  The matcher never answers false in these cases. *)
Theorem defective_spec_always_raises (depth : nat) (val T : value) :
  (contains T EASY_TYPES = false -> contains T CHECKABLE_TYPES = false ->
   matches (S depth) val T = Raise UnknownType)
  /\ (forall parent_type reqs,
        T = VTuple [parent_type; reqs] ->
        value_eqb parent_type (VClass dict) = false ->
        value_eqb parent_type (VClass list_) = false ->
        matches (S depth) val T = Raise UnknownType)
  /\ (forall parent_type reqs extra_reqs checkers er_key,
        T = VTuple [parent_type; reqs] ->
        dict_of reqs = Ok extra_reqs ->
        checkers_for (matches depth) extra_reqs parent_type = Ok checkers ->
        In er_key (keys extra_reqs) -> checkers er_key = None ->
        matches (S depth) val T = Raise UnknownType)
  /\ is_EasyBuildError UnknownType = true.
Proof.
  split; [apply unregistered_raises|]. split; [|split; [|reflexivity]].
  - intros parent_type reqs -> Hd Hl.
    apply unregistered_raises; [apply compound_not_easy|].
    destruct (contains _ CHECKABLE_TYPES) eqn:Hc; [|reflexivity].
    exfalso. apply CHECKABLE_TYPES_cases in Hc.
    destruct Hc as [Hc|[Hc|Hc]]; inversion Hc; subst; discriminate.
  - intros parent_type reqs extra_reqs checkers er_key -> Hd Hck Hin Hnone.
    apply unregistered_raises; [apply compound_not_easy|].
    destruct (contains _ CHECKABLE_TYPES) eqn:Hc; [|reflexivity].
    exfalso. apply CHECKABLE_TYPES_cases in Hc.
    destruct Hc as [Hc|[Hc|Hc]]; inversion Hc; subst;
      vm_compute in Hd; inversion Hd; subst;
      cbn [checkers_for value_eqb pyclass_eqb] in Hck; inversion Hck; subst;
      cbn [keys map fst In] in Hin;
      repeat (destruct Hin as [<-|Hin]; [discriminate Hnone|]);
      exact Hin.
Qed.

Lemma defective_spec_always_raises_witness :
  matches 1 (VFloat 1) (VClass float) = Raise UnknownType
  /\ matches 1 (VInt 1) (VTuple [VClass tuple; VTuple []])
     = Raise UnknownType
  /\ matches 1 (VTuple []) (VTuple [VClass tuple; VTuple []])
     = Raise UnknownType
  /\ matches 1 (VDict [])
             (VTuple [VClass dict;
                      VTuple [VTuple [VStr "key_type"; VTuple []]]])
     = Raise UnknownType.
Proof.
  split; [|split; [|split]].
  - apply (proj1 (defective_spec_always_raises 0 (VFloat 1)
                    (VClass float))); reflexivity.
  - apply (proj1 (proj2 (defective_spec_always_raises 0 (VInt 1)
                    (VTuple [VClass tuple; VTuple []]))) (VClass tuple)
                 (VTuple []) eq_refl); reflexivity.
  - apply (proj1 (proj2 (defective_spec_always_raises 0 (VTuple [])
                    (VTuple [VClass tuple; VTuple []]))) (VClass tuple)
                 (VTuple []) eq_refl); reflexivity.
  - apply (proj1 (proj2 (proj2 (defective_spec_always_raises 0 (VDict [])
                    (VTuple [VClass dict;
                             VTuple [VTuple [VStr "key_type"; VTuple []]]]))))
                 (VClass dict) _ [("key_type", VTuple [])] _ "key_type"
                 eq_refl eq_refl eq_refl);
      [left|]; reflexivity.
Defined.

(** ** Mapping types: every declared requirement must hold *)

Lemma In_VStr (k : string) (ks : list string) :
  In (VStr k) (map VStr ks) <-> In k ks.
Proof.
  rewrite in_map_iff. split.
  - intros (x & E & Hx). inversion E; subst. exact Hx.
  - intros H. exists k. auto.
Qed.

Lemma spec_opt_keys_among (extra_reqs d : pydict) (required opt : list string) :
  members (dict_find "required_keys" extra_reqs) = map VStr required ->
  members (dict_find "opt_keys" extra_reqs) = map VStr opt ->
  (spec_opt_keys extra_reqs d <-> keys_among (required ++ opt) d = true).
Proof.
  intros Hr Ho. unfold spec_opt_keys. rewrite Hr, Ho, keys_among_spec.
  split; intros H k Hin.
  - apply in_or_app. destruct (H k Hin) as [Hk|Hk]; apply In_VStr in Hk; auto.
  - apply H, in_app_or in Hin. rewrite !In_VStr. exact Hin.
Qed.

Lemma spec_required_keys_has (extra_reqs d : pydict) (required : list string) :
  members (dict_find "required_keys" extra_reqs) = map VStr required ->
  (spec_required_keys extra_reqs d <-> has_keys required d = true).
Proof.
  intros Hr. unfold spec_required_keys, has_keys.
  rewrite Hr, forallb_forall. split.
  - intros H k Hk. apply dict_has_In.
    destruct (H (VStr k)) as (k' & E & Hin); [apply In_VStr, Hk|].
    inversion E; subst. exact Hin.
  - intros H name Hin. apply in_map_iff in Hin as (k & <- & Hk).
    exists k. split; [reflexivity|]. apply dict_has_In, H, Hk.
Qed.

Lemma spec_value_types_str (extra_reqs d : pydict) (depth : nat) :
  members (dict_find "value_types" extra_reqs) = [VClass str] ->
  (spec_value_types (matches (S depth)) extra_reqs d
   <-> forallb (fun x => isinstance_class x str) (values d) = true).
Proof.
  intros Hv. unfold spec_value_types. rewrite Hv, forallb_forall.
  split.
  - intros H v Hin. destruct (H v Hin) as (t & [<-|[]] & Hm).
    change (matches (S depth) v (VClass str))
      with (@Ok bool (isinstance_class v str)) in Hm.
    inversion Hm. reflexivity.
  - intros H v Hin. exists (VClass str). split; [left; reflexivity|].
    change (matches (S depth) v (VClass str))
      with (@Ok bool (isinstance_class v str)).
    rewrite (H v Hin). reflexivity.
Qed.

(** C4: for a dict value and each compound type of [CHECKABLE_TYPES] whose
    parent is [dict], the matcher raises nothing and returns true iff every
    requirement the type declares holds of the dict, the requirements
    being read as the specification states them: key_types and value_types
    ask every key, respectively value, to match one of the listed types,
    required_keys asks every listed name to be a key, and opt_keys asks
    every key of the dict to be a member of required_keys or opt_keys.  A
    dependency dict with an extra key and a name/version dict without
    version are rejected, nothing raised. *)
Theorem matches_mapping_iff_requirements (depth : nat) (d : pydict) :
  (forall T,
     contains T CHECKABLE_TYPES = true -> getitem T 0 = Ok (VClass dict) ->
     exists reqs extra_reqs type_ok,
       getitem T 1 = Ok reqs
       /\ dict_of reqs = Ok extra_reqs
       /\ matches (S (S depth)) (VDict d) T = Ok type_ok
       /\ (type_ok = true <->
           forall name, In name (keys extra_reqs) ->
             spec_requirement (matches (S depth)) extra_reqs name d))
  /\ matches (S (S depth))
             (VDict [("name", VStr "a"); ("version", VStr "1");
                     ("extra", VStr "x")]) DEPENDENCY_DICT = Ok false
  /\ matches (S (S depth)) (VDict [("name", VStr "foo")]) NAME_VERSION_DICT
     = Ok false.
Proof.
  split; [|split; reflexivity].
  intros T Hc Hparent. apply CHECKABLE_TYPES_cases in Hc.
  destruct Hc as [->|[->| ->]]; [|discriminate Hparent|].
  - set (er := [("opt_keys", VTuple []);
                ("required_keys", VTuple [VStr "name"; VStr "version"]);
                ("value_types", VTuple [VClass str])]).
    eexists _, er, (is_name_version_dict (VDict d)).
    split; [reflexivity|]. split; [reflexivity|].
    split; [apply matches_NAME_VERSION_DICT|].
    cbn [is_name_version_dict]. rewrite !andb_true_iff.
    rewrite <- (spec_opt_keys_among er d ["name"; "version"] [])
      by reflexivity.
    rewrite <- (spec_required_keys_has er d ["name"; "version"])
      by reflexivity.
    rewrite <- (spec_value_types_str er d depth) by reflexivity.
    split.
    + intros [[Ho Hr] Hv] name Hin. cbn [er keys map fst In] in Hin.
      destruct Hin as [<-|[<-|[<-|[]]]]; assumption.
    + intros H. repeat split.
      * apply (H "opt_keys"). cbn. auto.
      * apply (H "required_keys"). cbn. auto.
      * apply (H "value_types"). cbn. auto.
  - set (er := [("opt_keys", VTuple [VStr "versionsuffix"; VStr "toolchain"]);
                ("required_keys", VTuple [VStr "name"; VStr "version"])]).
    eexists _, er, (is_dependency_dict (VDict d)).
    split; [reflexivity|]. split; [reflexivity|].
    split; [apply matches_DEPENDENCY_DICT|].
    cbn [is_dependency_dict]. rewrite !andb_true_iff.
    change DEPENDENCY_KEYS
      with (["name"; "version"] ++ ["versionsuffix"; "toolchain"]).
    rewrite <- (spec_opt_keys_among er d ["name"; "version"]
                  ["versionsuffix"; "toolchain"]) by reflexivity.
    rewrite <- (spec_required_keys_has er d ["name"; "version"])
      by reflexivity.
    split.
    + intros [Ho Hr] name Hin. cbn [er keys map fst In] in Hin.
      destruct Hin as [<-|[<-|[]]]; assumption.
    + intros H. split.
      * apply (H "opt_keys"). cbn. auto.
      * apply (H "required_keys"). cbn. auto.
Qed.

Lemma matches_mapping_iff_requirements_witness :
  exists reqs extra_reqs type_ok,
    getitem DEPENDENCY_DICT 1 = Ok reqs
    /\ dict_of reqs = Ok extra_reqs
    /\ matches 2 (VDict [("name", VStr "a"); ("version", VStr "1");
                         ("extra", VStr "x")]) DEPENDENCY_DICT = Ok type_ok
    /\ (type_ok = true <->
        forall name, In name (keys extra_reqs) ->
          spec_requirement (matches 1) extra_reqs name
            [("name", VStr "a"); ("version", VStr "1"); ("extra", VStr "x")]).
Proof.
  apply (proj1 (matches_mapping_iff_requirements 0
                  [("name", VStr "a"); ("version", VStr "1");
                   ("extra", VStr "x")]) DEPENDENCY_DICT);
    reflexivity.
Defined.
